(** * Career-Conversation: the tool-calling chat loop of [app.py]

    A shallow embedding of [app.py] (the persona chat bot: [push], the two
    recording tools, the tool catalog, [Me.system_prompt],
    [Me.handle_tool_call] and [Me.chat]) together with the properties of
    its orchestration loop.

    Python values are an inductive type, exceptions are an error result,
    the effects of the program (standard output, the notification POSTs,
    the requests to the model) are threaded through an explicit [World],
    and everything the program gets from outside (environment variables,
    the network, the model, the files) is read from an [Env]. *)

From Stdlib Require Import String Ascii List ZArith NArith Bool Lia.
From Stdlib Require Import DecimalString.
Import ListNotations.
Local Open Scope string_scope.
Local Open Scope list_scope.

(** ** Objects of the OpenAI SDK that the program reads *)

(** [tool_call.function]: the requested name and the raw argument text. *)
Record Function := {
  fn_name : string;
  fn_arguments : string
}.

(** One entry of [choice.message.tool_calls]. *)
Record ToolCall := {
  tc_id : string;
  tc_function : Function
}.

(** [choice.message]; [content] and [tool_calls] are both optional. *)
Record ChatCompletionMessage := {
  msg_content : option string;
  msg_tool_calls : option (list ToolCall)
}.

Record Choice := {
  finish_reason : string;
  message : ChatCompletionMessage
}.

(** The value of [client.chat.completions.create(...)]. *)
Record ChatCompletion := {
  choices : list Choice
}.

(** ** Python values *)

(** The values the program handles.  A [str] is the byte string of its
    UTF-8 encoding.  A [float] is kept as its [repr] (the text Python
    prints for it).  A [dict] keeps insertion order and has string keys,
    which is all the program builds.  [PyMessage] is an SDK message
    object, [PyInstance] any other object, named by its class. *)
#[warnings="-register-all"]
Inductive pyval : Type :=
| PyNone
| PyBool (b : bool)
| PyInt (n : Z)
| PyFloat (repr : string)
| PyStr (s : string)
| PyList (xs : list pyval)
| PyDict (items : list (string * pyval))
| PyMessage (m : ChatCompletionMessage)
| PyInstance (cls : string).

Definition pydict := list (string * pyval).

(** The exception classes that can travel through the program. *)
Inductive exception : Type :=
| JSONDecodeError
| RecursionError        (* the interpreter's limit on nested calls *)
| ValueError            (* an integer text over the digit limit *)
| TypeError
| KeyError (key : string)
| IndexError
| RequestException      (* requests: connection error, timeout, ... *)
| OpenAIError           (* openai: connection, authentication, rate limit, ... *)
| OSError.              (* a missing or unreadable file *)

(** The outcome of evaluating an expression: a value or a raised
    exception. *)
Inductive result (A : Type) : Type :=
| Return (a : A)
| Raise (e : exception).
Arguments Return {A} a.
Arguments Raise {A} e.

(** *** dict operations *)

(** [d.get(k)] as an option. *)
Fixpoint dict_get (k : string) (d : pydict) : option pyval :=
  match d with
  | [] => None
  | (k', v) :: d' => if String.eqb k k' then Some v else dict_get k d'
  end.

(** [d[k] = v]: an existing key keeps its position. *)
Fixpoint dict_set (k : string) (v : pyval) (d : pydict) : pydict :=
  match d with
  | [] => [(k, v)]
  | (k', v') :: d' =>
      if String.eqb k k' then (k, v) :: d' else (k', v') :: dict_set k v d'
  end.

(** [dict(pairs)]: later pairs overwrite earlier ones. *)
Definition dict_of_pairs (pairs : list (string * pyval)) : pydict :=
  fold_left (fun d kv => dict_set (fst kv) (snd kv) d) pairs [].

Definition keys (d : pydict) : list string := map fst d.

Definition mem (k : string) (ks : list string) : bool :=
  existsb (String.eqb k) ks.

(** [d[k]]: raises [KeyError] when the key is missing. *)
Definition getitem (d : pydict) (k : string) : result pyval :=
  match dict_get k d with
  | Some v => Return v
  | None => Raise (KeyError k)
  end.

(** *** Truth value *)

(** [bool(v)]. *)
Definition truth (v : pyval) : bool :=
  match v with
  | PyNone => false
  | PyBool b => b
  | PyInt n => negb (n =? 0)%Z
  | PyFloat r => negb (String.eqb r "0.0" || String.eqb r "-0.0")
  | PyStr s => negb (String.eqb s EmptyString)
  | PyList xs => match xs with [] => false | _ => true end
  | PyDict d => match d with [] => false | _ => true end
  | PyMessage _ => true
  | PyInstance _ => true
  end.

(** ** The [json] module *)

Module json.

Local Open Scope char_scope.

Definition is_ws (c : ascii) : bool :=
  match c with
  | " " | "009" | "010" | "013" => true
  | _ => false
  end.

Fixpoint skip_ws (s : list ascii) : list ascii :=
  match s with
  | c :: r => if is_ws c then skip_ws r else s
  | [] => []
  end.

Definition is_digit (c : ascii) : bool :=
  let n := N_of_ascii c in ((48 <=? n) && (n <=? 57))%N.

Fixpoint span_digits (s : list ascii) : list ascii * list ascii :=
  match s with
  | c :: r =>
      if is_digit c
      then let (ds, r') := span_digits r in (c :: ds, r')
      else ([], s)
  | [] => ([], [])
  end.

Definition int_of_digits (ds : list ascii) : Z :=
  fold_left (fun acc c => (10 * acc + Z.of_N (N_of_ascii c - 48))%Z) ds 0%Z.

Definition hex_val (c : ascii) : option N :=
  let n := N_of_ascii c in
  if ((48 <=? n) && (n <=? 57))%N then Some (n - 48)%N
  else if ((97 <=? n) && (n <=? 102))%N then Some (n - 87)%N
  else if ((65 <=? n) && (n <=? 70))%N then Some (n - 55)%N
  else None.

(** The four hex digits of a [\uXXXX] escape. *)
Definition hex4 (s : list ascii) : option (N * list ascii) :=
  match s with
  | a :: b :: c :: d :: r =>
      match hex_val a, hex_val b, hex_val c, hex_val d with
      | Some x, Some y, Some z, Some w =>
          Some ((((x * 16 + y) * 16 + z) * 16 + w)%N, r)
      | _, _, _, _ => None
      end
  | _ => None
  end.

Definition byte (n : N) : ascii := ascii_of_N n.

(** UTF-8 bytes of a code point (a lone surrogate gets the three bytes
    the same scheme gives it). *)
Definition utf8_encode (cp : N) : list ascii :=
  if (cp <? 128)%N then [byte cp]
  else if (cp <? 2048)%N then
    [byte (192 + cp / 64); byte (128 + cp mod 64)]
  else if (cp <? 65536)%N then
    [byte (224 + cp / 4096); byte (128 + (cp / 64) mod 64);
     byte (128 + cp mod 64)]
  else
    [byte (240 + cp / 262144); byte (128 + (cp / 4096) mod 64);
     byte (128 + (cp / 64) mod 64); byte (128 + cp mod 64)].

Definition is_cont (c : ascii) : bool :=
  let n := N_of_ascii c in ((128 <=? n) && (n <? 192))%N.

(** The first code point of a UTF-8 byte string and the rest; a byte that
    does not start a well-formed sequence stands for itself. *)
Definition utf8_decode (c : ascii) (r : list ascii) : N * list ascii :=
  let n := N_of_ascii c in
  let lo (x : ascii) := (N_of_ascii x - 128)%N in
  if (n <? 192)%N then (n, r)
  else if (n <? 224)%N then
    match r with
    | c1 :: r' =>
        if is_cont c1 then (((n - 192) * 64 + lo c1)%N, r') else (n, r)
    | _ => (n, r)
    end
  else if (n <? 240)%N then
    match r with
    | c1 :: c2 :: r' =>
        if is_cont c1 && is_cont c2
        then ((((n - 224) * 64 + lo c1) * 64 + lo c2)%N, r')
        else (n, r)
    | _ => (n, r)
    end
  else
    match r with
    | c1 :: c2 :: c3 :: r' =>
        if is_cont c1 && is_cont c2 && is_cont c3
        then (((((n - 240) * 64 + lo c1) * 64 + lo c2) * 64 + lo c3)%N, r')
        else (n, r)
    | _ => (n, r)
    end.

(** *** Decoding: [json.loads] *)

(** The input after its first character, when that character is [c]. *)
Definition head_is (c : ascii) (s : list ascii) : option (list ascii) :=
  match s with
  | x :: r => if Ascii.eqb x c then Some r else None
  | [] => None
  end.

(** A [\uXXXX] escape, after the [u]: a high surrogate directly followed
    by an escaped low surrogate makes one code point. *)
Definition scan_unicode (s : list ascii) : option (N * list ascii) :=
  match hex4 s with
  | Some (u, r) =>
      if ((55296 <=? u) && (u <=? 56319))%N then
        match head_is "\" r with
        | Some r1 =>
            match head_is "u" r1 with
            | Some r2 =>
                match hex4 r2 with
                | Some (u2, r3) =>
                    if ((56320 <=? u2) && (u2 <=? 57343))%N
                    then Some ((65536 + ((u - 55296) * 1024
                                         + (u2 - 56320)))%N, r3)
                    else Some (u, r)
                | None => Some (u, r)
                end
            | None => Some (u, r)
            end
        | None => Some (u, r)
        end
      else Some (u, r)
  | None => None
  end.

(** The outcome of a scan: a value and the rest of the input, an
    exception, or the end of the fuel (which [loads] never reaches: see
    [json_facts.loads_has_fuel]). *)
Inductive scanned (A : Type) : Type :=
| Scanned (a : A) (rest : list ascii)
| Failed (e : exception)
| Exhausted.
Arguments Scanned {A} a rest.
Arguments Failed {A} e.
Arguments Exhausted {A}.

(** The character a two-character escape stands for. *)
Definition simple_escape (e : ascii) : option ascii :=
  match e with
  | "034" => Some "034"
  | "\" => Some "\"
  | "/" => Some "/"
  | "b" => Some "008"
  | "f" => Some "012"
  | "n" => Some "010"
  | "r" => Some "013"
  | "t" => Some "009"
  | _ => None
  end.

(** The body of a string, after its opening quote (strict mode: a raw
    control character is an error).  [fuel] bounds the characters read. *)
Fixpoint scanstring (fuel : nat) (s : list ascii) (acc : list ascii)
  : scanned string :=
  match fuel with
  | O => Exhausted
  | S fuel =>
      match s with
      | [] => Failed JSONDecodeError
      | c :: r =>
          if Ascii.eqb c "034" then Scanned (string_of_list_ascii acc) r
          else if Ascii.eqb c "\" then
            match r with
            | [] => Failed JSONDecodeError
            | e :: r' =>
                if Ascii.eqb e "u" then
                  match scan_unicode r' with
                  | Some (cp, r'') =>
                      scanstring fuel r'' (acc ++ utf8_encode cp)
                  | None => Failed JSONDecodeError
                  end
                else
                  match simple_escape e with
                  | Some x => scanstring fuel r' (acc ++ [x])
                  | None => Failed JSONDecodeError
                  end
            end
          else if (N_of_ascii c <? 32)%N then Failed JSONDecodeError
          else scanstring fuel r (acc ++ [c])
      end
  end.

Definition starts_with (p s : list ascii) : option (list ascii) :=
  (fix go (p s : list ascii) : option (list ascii) :=
     match p, s with
     | [], _ => Some s
     | a :: p', b :: s' => if Ascii.eqb a b then go p' s' else None
     | _ :: _, [] => None
     end) p s.

(** [int(text)] for a run of decimal digits: the interpreter refuses a
    text of more than [max_digits] digits with [ValueError], unless
    [max_digits] is [0], which stands for no limit
    ([sys.get_int_max_str_digits()]); a text of 640 digits or fewer is
    below the threshold at which it looks at the limit. *)
Definition parse_int (max_digits : nat) (sign digits : list ascii)
  : result pyval :=
  if Nat.ltb 640 (length digits)
     && negb (Nat.eqb max_digits 0)
     && Nat.ltb max_digits (length digits)
  then Raise ValueError
  else
    let n := int_of_digits digits in
    Return (PyInt (match sign with [] => n | _ => (- n)%Z end)).

(** A number: an optional minus sign, then either a single zero or a
    non-zero digit followed by digits, then optionally a point with at
    least one digit, then optionally an exponent mark with an optional
    sign and at least one digit.  It is an integer when it has neither
    fraction nor exponent, else [parse_float] of its text.  [None] when
    the input does not start with a number. *)
Definition scan_number (parse_float : string -> string) (max_digits : nat)
    (s : list ascii) : option (result pyval * list ascii) :=
  let (sign, s1) :=
    match head_is "-" s with
    | Some r => (["-"], r)
    | None => ([], s)
    end in
  let int_part :=
    match s1 with
    | c :: r =>
        if Ascii.eqb c "0" then Some (["0"], r)
        else if is_digit c
        then let (ds, r') := span_digits r in Some (c :: ds, r')
        else None
    | [] => None
    end in
  match int_part with
  | None => None
  | Some (ip, r1) =>
      let (frac, r2) :=
        match head_is "." r1 with
        | Some r =>
            match span_digits r with
            | ([], _) => ([], r1)
            | (ds, r') => ("." :: ds, r')
            end
        | None => ([], r1)
        end in
      let (exp, r3) :=
        match r2 with
        | e :: r =>
            if Ascii.eqb e "e" || Ascii.eqb e "E" then
              let (sg, r') :=
                match head_is "+" r with
                | Some t => (["+"], t)
                | None =>
                    match head_is "-" r with
                    | Some t => (["-"], t)
                    | None => ([], r)
                    end
                end in
              match span_digits r' with
              | ([], _) => ([], r2)
              | (ds, r'') => (e :: sg ++ ds, r'')
              end
            else ([], r2)
        | [] => ([], r2)
        end in
      match frac, exp with
      | [], [] => Some (parse_int max_digits sign ip, r3)
      | _, _ =>
          Some (Return (PyFloat (parse_float
                  (string_of_list_ascii (sign ++ ip ++ frac ++ exp)))), r3)
      end
  end.

(** A value that is neither a string nor a container: one of the three
    literals, a number, or one of the three names of the floats that are
    not numbers. *)
Definition scan_atom (parse_float : string -> string) (max_digits : nat)
    (s : list ascii) : scanned pyval :=
  match starts_with ["n"; "u"; "l"; "l"] s with
  | Some r => Scanned PyNone r
  | None =>
  match starts_with ["t"; "r"; "u"; "e"] s with
  | Some r => Scanned (PyBool true) r
  | None =>
  match starts_with ["f"; "a"; "l"; "s"; "e"] s with
  | Some r => Scanned (PyBool false) r
  | None =>
  match scan_number parse_float max_digits s with
  | Some (Return v, r) => Scanned v r
  | Some (Raise e, _) => Failed e
  | None =>
  match starts_with ["N"; "a"; "N"] s with
  | Some r => Scanned (PyFloat "nan") r
  | None =>
  match starts_with ["I"; "n"; "f"; "i"; "n"; "i"; "t"; "y"] s with
  | Some r => Scanned (PyFloat "inf") r
  | None =>
  match starts_with ["-"; "I"; "n"; "f"; "i"; "n"; "i"; "t"; "y"] s with
  | Some r => Scanned (PyFloat "-inf") r
  | None => Failed JSONDecodeError
  end end end end end end end.

Section Decoder.

(** [float] composed with [repr]: the text of the double a number
    denotes; the decoder takes it as a hook, as [json.loads] does. *)
Variable parse_float : string -> string.

(** The limit on the digits of an integer text ([0]: none). *)
Variable max_digits : nat.

(** One JSON value at the head of [s], and the rest of the input.
    [depth] is the number of nested containers the interpreter still lets
    the scanner enter: entering one more raises [RecursionError].
    [fuel] bounds the calls; a call on an input of [n] characters needs
    no more than [2 * n + 1] of it. *)
Fixpoint scan_once (fuel : nat) (depth : nat) (s : list ascii) {struct fuel}
  : scanned pyval :=
  match fuel with
  | O => Exhausted
  | S fuel =>
      match head_is "034" s with
      | Some r =>
          match scanstring (S (length r)) r [] with
          | Scanned str r' => Scanned (PyStr str) r'
          | Failed e => Failed e
          | Exhausted => Exhausted
          end
      | None =>
      match head_is "{" s with
      | Some r =>
          match depth with
          | O => Failed RecursionError
          | S depth =>
              match head_is "}" (skip_ws r) with
              | Some r' => Scanned (PyDict []) r'
              | None => scan_pairs fuel depth (skip_ws r) []
              end
          end
      | None =>
      match head_is "[" s with
      | Some r =>
          match depth with
          | O => Failed RecursionError
          | S depth =>
              match head_is "]" (skip_ws r) with
              | Some r' => Scanned (PyList []) r'
              | None => scan_items fuel depth (skip_ws r) []
              end
          end
      | None => scan_atom parse_float max_digits s
      end end end
  end

(** The elements of an array, after [[] and white space. *)
with scan_items (fuel : nat) (depth : nat) (s : list ascii)
       (acc : list pyval) {struct fuel} : scanned pyval :=
  match fuel with
  | O => Exhausted
  | S fuel =>
      match scan_once fuel depth s with
      | Scanned v r =>
          match head_is "," (skip_ws r) with
          | Some r' => scan_items fuel depth (skip_ws r') (acc ++ [v])
          | None =>
              match head_is "]" (skip_ws r) with
              | Some r' => Scanned (PyList (acc ++ [v])) r'
              | None => Failed JSONDecodeError
              end
          end
      | Failed e => Failed e
      | Exhausted => Exhausted
      end
  end

(** The members of an object, after [{] and white space. *)
with scan_pairs (fuel : nat) (depth : nat) (s : list ascii)
       (acc : list (string * pyval)) {struct fuel} : scanned pyval :=
  match fuel with
  | O => Exhausted
  | S fuel =>
      match head_is "034" s with
      | Some r =>
          match scanstring (S (length r)) r [] with
          | Scanned key r1 =>
              match head_is ":" (skip_ws r1) with
              | Some r2 =>
                  match scan_once fuel depth (skip_ws r2) with
                  | Scanned v r3 =>
                      match head_is "," (skip_ws r3) with
                      | Some r4 =>
                          scan_pairs fuel depth (skip_ws r4)
                            (acc ++ [(key, v)])
                      | None =>
                          match head_is "}" (skip_ws r3) with
                          | Some r4 =>
                              Scanned
                                (PyDict (dict_of_pairs (acc ++ [(key, v)])))
                                r4
                          | None => Failed JSONDecodeError
                          end
                      end
                  | Failed e => Failed e
                  | Exhausted => Exhausted
                  end
              | None => Failed JSONDecodeError
              end
          | Failed e => Failed e
          | Exhausted => Exhausted
          end
      | None => Failed JSONDecodeError
      end
  end.

(** [json.loads(s)] with [depth] nested containers allowed.  It raises
    [JSONDecodeError] on a text that is not JSON, [RecursionError] on
    containers nested deeper than [depth], and [ValueError] on an integer
    of more than [max_digits] digits, whichever the scan meets first. *)
Definition loads (depth : nat) (s : string) : result pyval :=
  let cs := skip_ws (list_ascii_of_string s) in
  match scan_once (2 * length cs + 2) depth cs with
  | Scanned v r =>
      match skip_ws r with
      | [] => Return v
      | _ :: _ => Raise JSONDecodeError
      end
  | Failed e => Raise e
  | Exhausted => Raise RecursionError
  end.

End Decoder.

(** *** Encoding: [json.dumps], with its default settings *)

Definition hex_digit (n : N) : ascii :=
  if (n <? 10)%N then byte (48 + n) else byte (87 + n).

Definition u_escape (n : N) : list ascii :=
  ["\"; "u"; hex_digit (n / 4096); hex_digit ((n / 256) mod 16);
   hex_digit ((n / 16) mod 16); hex_digit (n mod 16)].

(** [ensure_ascii]: the quote, the backslash and the five short escapes;
    printable ASCII stays; every other code point becomes [\uXXXX], or a
    surrogate pair above the basic plane. *)
Definition escape_cp (cp : N) : list ascii :=
  if (cp =? 34)%N then ["\"; "034"]
  else if (cp =? 92)%N then ["\"; "\"]
  else if (cp =? 10)%N then ["\"; "n"]
  else if (cp =? 13)%N then ["\"; "r"]
  else if (cp =? 9)%N then ["\"; "t"]
  else if (cp =? 12)%N then ["\"; "f"]
  else if (cp =? 8)%N then ["\"; "b"]
  else if ((32 <=? cp) && (cp <=? 126))%N then [byte cp]
  else if (cp <? 65536)%N then u_escape cp
  else
    let n := (cp - 65536)%N in
    u_escape (55296 + (n / 1024) mod 1024) ++ u_escape (56320 + n mod 1024).

Fixpoint escape (fuel : nat) (s : list ascii) : list ascii :=
  match fuel, s with
  | S fuel, c :: r =>
      let (cp, r') := utf8_decode c r in escape_cp cp ++ escape fuel r'
  | _, _ => []
  end.

Definition encode_string (s : string) : string :=
  let cs := list_ascii_of_string s in
  string_of_list_ascii (["034"] ++ escape (length cs) cs ++ ["034"]).

Definition string_of_Z (n : Z) : string :=
  NilZero.string_of_int (Z.to_int n).

(** [json.dumps(v)]: an object that is not JSON data raises [TypeError]. *)
Fixpoint dumps (v : pyval) : result string :=
  match v with
  | PyNone => Return "null"%string
  | PyBool true => Return "true"%string
  | PyBool false => Return "false"%string
  | PyInt n => Return (string_of_Z n)
  | PyFloat r =>
      Return (if String.eqb r "nan" then "NaN"
              else if String.eqb r "inf" then "Infinity"
              else if String.eqb r "-inf" then "-Infinity"
              else r)%string
  | PyStr s => Return (encode_string s)
  | PyList xs =>
      match
        (fix items (xs : list pyval) : result (list string) :=
           match xs with
           | [] => Return []
           | x :: r =>
               match dumps x, items r with
               | Return s, Return l => Return (s :: l)
               | Raise e, _ => Raise e
               | _, Raise e => Raise e
               end
           end) xs
      with
      | Return l => Return ("[" ++ String.concat ", " l ++ "]")%string
      | Raise e => Raise e
      end
  | PyDict d =>
      match
        (fix members (d : list (string * pyval)) : result (list string) :=
           match d with
           | [] => Return []
           | (k, x) :: r =>
               match dumps x, members r with
               | Return s, Return l =>
                   Return ((encode_string k ++ ": " ++ s)%string :: l)
               | Raise e, _ => Raise e
               | _, Raise e => Raise e
               end
           end) d
      with
      | Return l => Return ("{" ++ String.concat ", " l ++ "}")%string
      | Raise e => Raise e
      end
  | PyMessage _ => Raise TypeError
  | PyInstance _ => Raise TypeError
  end.

End json.

(** ** The world outside the program *)

(** One call of [requests.post(url, data=...)]. *)
Record Post := {
  url : string;
  data : pydict
}.

(** One call of [client.chat.completions.create(model=, messages=, tools=)]. *)
Record Request := {
  req_model : string;
  req_messages : list pyval;
  req_tools : pyval
}.

(** What the program has done to the outside, oldest first: the lines
    printed, the POSTs attempted and the requests sent to the model. *)
Record World := {
  stdout : list string;
  posts : list Post;
  requests : list Request
}.

Definition empty_world : World :=
  {| stdout := []; posts := []; requests := [] |}.

(** The instance attributes set by [Me.__init__] (the client is the
    connection to the model of the environment). *)
Record Me := {
  name : string;
  model_name : string;
  linkedin : string;
  summary : string
}.

(** What a module-level name can be bound to. *)
Inductive pyobject : Type :=
| OValue (v : pyval)           (* data *)
| OModule (module : string)    (* an imported module *)
| OExternal (callable : string) (* a callable imported from a library *)
| OPush                        (* the functions the module defines *)
| ORecordUserDetails
| ORecordUnknownQuestion
| OClassMe.                    (* the class the module defines *)

(** Everything the program takes from outside. *)
Record Env := {
  (** [os.environ], after [load_dotenv(override=True)] *)
  environ : string -> option string;
  (** whether the file runs as a script ([__name__ == "__main__"]) *)
  run_as_script : bool;
  (** the other names the interpreter puts in a module's globals
      ([__doc__], [__file__], [__builtins__], ...) *)
  interpreter_globals : list (string * pyobject);
  (** [float(text)], as its [repr] *)
  parse_float : string -> string;
  (** how many nested containers the interpreter lets [json.loads] enter
      before [RecursionError] (the recursion limit less the calls in
      progress) *)
  recursion_limit : nat;
  (** [sys.get_int_max_str_digits()]: the limit on the digits of an
      integer text, [0] for none *)
  int_max_str_digits : nat;
  (** [str(v)] of a list, a dict or an object *)
  repr : pyval -> string;
  (** the notification endpoint: the outcome of the POST made after [n]
      earlier ones, the status code of its response or an exception *)
  network : nat -> Post -> result Z;
  (** the model: the outcome of the request made after [n] earlier ones *)
  model : nat -> Request -> result ChatCompletion;
  (** [OpenAI(api_key=, base_url=)] *)
  openai_client : option string -> string -> result unit;
  (** the text of each page of a PDF file *)
  pdf_pages : string -> result (list string);
  (** the content of a text file *)
  read_text : string -> result string;
  (** a call of an imported callable with keyword arguments *)
  external : string -> pydict -> result pyval
}.

(** ** Computations: a state and error monad over the [World] *)

Definition M (A : Type) : Type := World -> result A * World.

Definition ret {A : Type} (a : A) : M A := fun w => (Return a, w).

Definition raise {A : Type} (e : exception) : M A := fun w => (Raise e, w).

Definition lift {A : Type} (r : result A) : M A := fun w => (r, w).

Definition bind {A B : Type} (m : M A) (k : A -> M B) : M B :=
  fun w =>
    match m w with
    | (Return a, w') => k a w'
    | (Raise e, w') => (Raise e, w')
    end.

Notation "x <- m ;; k" := (bind m (fun x => k))
  (at level 61, m at next level, right associativity).
Notation "m ;; k" := (bind m (fun _ => k))
  (at level 61, right associativity).

(** The newline character as a string. *)
Definition nl : string := String "010" EmptyString.

(** [s] between double quotes. *)
Definition quoted (s : string) : string :=
  (String "034" EmptyString ++ s ++ String "034" EmptyString)%string.

(** [s.lower()]; only ASCII letters change, which is all a comparison with
    an ASCII word can see. *)
Definition lower (s : string) : string :=
  string_of_list_ascii
    (map (fun c =>
            let n := N_of_ascii c in
            if ((65 <=? n) && (n <=? 90))%N then ascii_of_N (n + 32) else c)
         (list_ascii_of_string s)).

(** ** The program *)

Local Open Scope string_scope.

Section App.

Variable E : Env.

(** [DEBUG = os.getenv("DEBUG", "false").lower() == "true"] *)
Definition DEBUG : bool :=
  String.eqb
    (lower (match environ E "DEBUG" with Some v => v | None => "false" end))
    "true".

(** [os.getenv(key)] *)
Definition getenv (key : string) : pyval :=
  match environ E key with
  | Some v => PyStr v
  | None => PyNone
  end.

(** The text an f-string puts for [{v}]. *)
Definition str (v : pyval) : string :=
  match v with
  | PyStr s => s
  | PyNone => "None"
  | PyBool true => "True"
  | PyBool false => "False"
  | PyInt n => json.string_of_Z n
  | PyFloat r => r
  | _ => repr E v
  end.

Definition print (line : string) : M unit :=
  fun w =>
    (Return tt,
     {| stdout := (stdout w ++ [line])%list;
        posts := posts w;
        requests := requests w |}).

(** [requests.post(url, data=data)]: the POST is attempted, then the
    network answers or the call raises. *)
Definition requests_post (url : string) (data : pydict) : M Z :=
  fun w =>
    let p := {| url := url; data := data |} in
    (network E (length (posts w)) p,
     {| stdout := stdout w;
        posts := (posts w ++ [p])%list;
        requests := requests w |}).

Definition push (message : pyval) : M pyval :=
  (if DEBUG then print ("[DEBUG] Push: " ++ str message) else ret tt) ;;
  requests_post "https://api.pushover.net/1/messages.json"
    [("token", getenv "PUSHOVER_TOKEN");
     ("user", getenv "PUSHOVER_USER");
     ("message", message)] ;;
  ret PyNone.

(** Tool function: record user email *)
Definition record_user_details (email name notes : pyval) : M pyval :=
  push (PyStr ("Recording " ++ str name ++ " with email " ++ str email
               ++ " and notes " ++ str notes)) ;;
  ret (PyDict [("recorded", PyStr "ok")]).

(** Tool function: log unknown questions *)
Definition record_unknown_question (question : pyval) : M pyval :=
  push (PyStr ("Recording unknown question: " ++ str question)) ;;
  ret (PyDict [("recorded", PyStr "ok")]).

(** Tool schema definitions *)
Definition record_user_details_json : pyval :=
  PyDict
    [("name", PyStr "record_user_details");
     ("description",
      PyStr "Use this tool to record that a user is interested in being in touch and provided an email address");
     ("parameters",
      PyDict
        [("type", PyStr "object");
         ("properties",
          PyDict
            [("email",
              PyDict [("type", PyStr "string");
                      ("description", PyStr "The user's email address")]);
             ("name",
              PyDict [("type", PyStr "string");
                      ("description", PyStr "The user's name (optional)")]);
             ("notes",
              PyDict [("type", PyStr "string");
                      ("description",
                       PyStr "Extra context or message (optional)")])]);
         ("required", PyList [PyStr "email"]);
         ("additionalProperties", PyBool false)])].

Definition record_unknown_question_json : pyval :=
  PyDict
    [("name", PyStr "record_unknown_question");
     ("description",
      PyStr "Use this tool to record any question that couldn't be answered");
     ("parameters",
      PyDict
        [("type", PyStr "object");
         ("properties",
          PyDict
            [("question",
              PyDict [("type", PyStr "string");
                      ("description", PyStr "The question text")])]);
         ("required", PyList [PyStr "question"]);
         ("additionalProperties", PyBool false)])].

Definition tools : pyval :=
  PyList
    [PyDict [("type", PyStr "function");
             ("function", record_user_details_json)];
     PyDict [("type", PyStr "function");
             ("function", record_unknown_question_json)]].

(** [Me.__init__] *)
Definition Me__init__ : M Me :=
  let name := "Moamen" in
  let groq_api_key := environ E "GROQ_API_KEY" in
  lift (openai_client E groq_api_key "https://api.groq.com/openai/v1") ;;
  let model_name := "llama-3.3-70b-versatile" in
  pages <- lift (pdf_pages E "me/Profile.pdf") ;;
  let linkedin :=
    fold_left
      (fun acc text => if truth (PyStr text) then acc ++ text else acc)
      pages EmptyString in
  summary <- lift (read_text E "me/summary.txt") ;;
  ret {| name := name;
         model_name := model_name;
         linkedin := linkedin;
         summary := summary |}.

(** [Me.system_prompt] *)
Definition system_prompt (self : Me) : string :=
  "You are acting as " ++ name self
  ++ ". You are answering questions on " ++ name self ++ "'s website, "
  ++ "particularly questions related to " ++ name self
  ++ "'s career, background, skills and experience. "
  ++ "Your responsibility is to represent " ++ name self
  ++ " for interactions on the website as faithfully as possible. "
  ++ "You are given a summary of " ++ name self
  ++ "'s background and LinkedIn profile which you can use to answer questions. "
  ++ "Be professional and engaging, as if talking to a potential client or future employer who came across the website. "
  ++ "If you don't know the answer to any question, use your record_unknown_question tool to record the question. "
  ++ "If the user is engaging in discussion, try to steer them towards getting in touch via email; "
  ++ "ask for their email and record it using your record_user_details tool."
  ++ nl ++ nl
  ++ "## Summary:" ++ nl ++ summary self ++ nl ++ nl
  ++ "## LinkedIn Profile:" ++ nl ++ linkedin self ++ nl ++ nl
  ++ "With this context, please chat with the user, always staying in character as "
  ++ name self ++ ".".

(** *** Module globals and calls *)

(** The names bound at module level, in the order the file binds them. *)
Definition module_globals : list (string * pyobject) :=
  ([("os", OModule "os");
   ("json", OModule "json");
   ("logging", OModule "logging");
   ("requests", OModule "requests");
   ("load_dotenv", OExternal "load_dotenv");
   ("OpenAI", OExternal "OpenAI");
   ("PdfReader", OExternal "PdfReader");
   ("gr", OModule "gradio");
   ("DEBUG", OValue (PyBool DEBUG));
   ("push", OPush);
   ("record_user_details", ORecordUserDetails);
   ("record_unknown_question", ORecordUnknownQuestion);
   ("record_user_details_json", OValue record_user_details_json);
   ("record_unknown_question_json", OValue record_unknown_question_json);
   ("tools", OValue tools);
   ("Me", OClassMe)]
  ++ (if run_as_script E then [("me", OValue (PyInstance "Me"))] else [])
  ++ [("__name__",
       OValue (PyStr (if run_as_script E then "__main__" else "app")))])%list.

Fixpoint lookup (k : string) (l : list (string * pyobject))
  : option pyobject :=
  match l with
  | [] => None
  | (k', o) :: l' => if String.eqb k k' then Some o else lookup k l'
  end.

(** [globals().get(name)]: [None] when the name is not bound. *)
Definition globals_get (name : string) : pyobject :=
  match lookup name (module_globals ++ interpreter_globals E)%list with
  | Some o => o
  | None => OValue PyNone
  end.

(** [bool(o)] *)
Definition truthy (o : pyobject) : bool :=
  match o with
  | OValue v => truth v
  | _ => true
  end.

(** A keyword that names no parameter of the function. *)
Definition unexpected (params : list string) (kwargs : pydict) : bool :=
  negb (forallb (fun k => mem k params) (keys kwargs)).

(** The value of a parameter: the keyword argument, else the default,
    else [TypeError]. *)
Definition arg (kwargs : pydict) (param : string) (default : option pyval)
  : M pyval :=
  match dict_get param kwargs, default with
  | Some v, _ => ret v
  | None, Some v => ret v
  | None, None => raise TypeError
  end.

(** A call of [o] with the keyword arguments [kwargs]. *)
Definition call (o : pyobject) (kwargs : pydict) : M pyval :=
  match o with
  | OPush =>
      if unexpected ["message"] kwargs then raise TypeError
      else
        message <- arg kwargs "message" None ;;
        push message
  | ORecordUserDetails =>
      if unexpected ["email"; "name"; "notes"] kwargs then raise TypeError
      else
        email <- arg kwargs "email" None ;;
        name <- arg kwargs "name" (Some (PyStr "Name not provided")) ;;
        notes <- arg kwargs "notes" (Some (PyStr "not provided")) ;;
        record_user_details email name notes
  | ORecordUnknownQuestion =>
      if unexpected ["question"] kwargs then raise TypeError
      else
        question <- arg kwargs "question" None ;;
        record_unknown_question question
  | OClassMe =>
      if unexpected [] kwargs then raise TypeError
      else
        Me__init__ ;;
        ret (PyInstance "Me")
  | OExternal callable => lift (external E callable kwargs)
  | OValue _ => raise TypeError
  | OModule _ => raise TypeError
  end.

(** The call of [tool] with [arguments] unpacked as keyword arguments:
    [arguments] must be a mapping. *)
Definition call_with (tool : pyobject) (arguments : pyval) : M pyval :=
  match arguments with
  | PyDict kwargs => call tool kwargs
  | _ => raise TypeError
  end.

(** The value or the exception of [json.loads(text)]. *)
Definition loads (text : string) : result pyval :=
  json.loads (parse_float E) (int_max_str_digits E) (recursion_limit E) text.

(** [json.loads(text)] *)
Definition json_loads (text : string) : M pyval := lift (loads text).

(** [json.dumps(v)] *)
Definition json_dumps (v : pyval) : M string := lift (json.dumps v).

(** *** [Me.handle_tool_call] *)

(** The body of the [for] loop of [handle_tool_call]: the message it
    appends to [results]. *)
Definition dispatch (tool_call : ToolCall) : M pyval :=
  let tool_name := fn_name (tc_function tool_call) in
  arguments <- json_loads (fn_arguments (tc_function tool_call)) ;;
  (if DEBUG then print ("[DEBUG] Tool called: " ++ tool_name)
   else ret tt) ;;
  let tool := globals_get tool_name in
  result <- (if truthy tool then call_with tool arguments
             else ret (PyDict [])) ;;
  content <- json_dumps result ;;
  ret (PyDict [("role", PyStr "tool");
               ("content", PyStr content);
               ("tool_call_id", PyStr (tc_id tool_call))]).

(** The loop, with [results] as its accumulator. *)
Fixpoint handle_tool_call_from (results : list pyval)
    (tool_calls : list ToolCall) : M (list pyval) :=
  match tool_calls with
  | [] => ret results
  | tool_call :: rest =>
      m <- dispatch tool_call ;;
      handle_tool_call_from (results ++ [m])%list rest
  end.

(** [tool_calls] is [choice.message.tool_calls], which may be [None]:
    iterating over [None] raises [TypeError]. *)
Definition handle_tool_call (tool_calls : option (list ToolCall))
  : M (list pyval) :=
  match tool_calls with
  | Some tool_calls => handle_tool_call_from [] tool_calls
  | None => raise TypeError
  end.

(** *** [Me.chat] *)

(** One entry of the history, cleaned. *)
Definition clean (msg : pyval) : result pyval :=
  match msg with
  | PyDict d =>
      match getitem d "role" with
      | Raise e => Raise e
      | Return role =>
          match getitem d "content" with
          | Raise e => Raise e
          | Return content =>
              Return (PyDict [("role", role); ("content", content)])
          end
      end
  | _ => Return msg
  end.

(** The first loop of [chat], with [clean_history] as its accumulator. *)
Fixpoint clean_from (clean_history : list pyval) (history : list pyval)
  : result (list pyval) :=
  match history with
  | [] => Return clean_history
  | msg :: rest =>
      match clean msg with
      | Return clean_msg => clean_from (clean_history ++ [clean_msg])%list rest
      | Raise e => Raise e
      end
  end.

(** [self.client.chat.completions.create(model=, messages=, tools=)] *)
Definition completions_create (model_name : string)
    (messages : list pyval) (tools : pyval) : M ChatCompletion :=
  fun w =>
    let r := {| req_model := model_name;
                req_messages := messages;
                req_tools := tools |} in
    (model E (length (requests w)) r,
     {| stdout := stdout w;
        posts := posts w;
        requests := (requests w ++ [r])%list |}).

(** [choices[0]] *)
Definition first_choice (choices : list Choice) : M Choice :=
  match choices with
  | choice :: _ => ret choice
  | [] => raise IndexError
  end.

(** How one pass through the body of [while not done] ends: with the
    extended [messages] and [done] still false, or with [done] set and
    the last [choice]. *)
Inductive pass : Type :=
| Again (messages : list pyval)
| Done (choice : Choice).

Definition loop_body (self : Me) (messages : list pyval) : M pass :=
  response <- completions_create (model_name self) messages tools ;;
  choice <- first_choice (choices response) ;;
  let finish_reason := finish_reason choice in
  if String.eqb finish_reason "tool_calls" then
    let tool_calls := msg_tool_calls (message choice) in
    tool_results <- handle_tool_call tool_calls ;;
    ret (Again (messages ++ [PyMessage (message choice)]
                ++ tool_results)%list)
  else ret (Done choice).

(** The [while] loop and the [return] after it.  [None] means that
    [fuel] passes did not end the loop. *)
Fixpoint chat_loop (fuel : nat) (self : Me) (messages : list pyval)
    (w : World) : option (result (option string) * World) :=
  match fuel with
  | O => None
  | S fuel =>
      match loop_body self messages w with
      | (Raise e, w') => Some (Raise e, w')
      | (Return (Done choice), w') =>
          Some (Return (msg_content (message choice)), w')
      | (Return (Again messages'), w') => chat_loop fuel self messages' w'
      end
  end.

(** The [messages] list [chat] starts its loop with. *)
Definition initial_messages (self : Me) (clean_history : list pyval)
    (message : string) : list pyval :=
  ([PyDict [("role", PyStr "system");
            ("content", PyStr (system_prompt self))]]
   ++ clean_history
   ++ [PyDict [("role", PyStr "user"); ("content", PyStr message)]])%list.

Definition chat (fuel : nat) (self : Me) (message : string)
    (history : list pyval) (w : World)
  : option (result (option string) * World) :=
  match clean_from [] history with
  | Raise e => Some (Raise e, w)
  | Return clean_history =>
      chat_loop fuel self (initial_messages self clean_history message) w
  end.

End App.

(** ** Notions used to state the properties *)

(** The message [handle_tool_call] builds for a tool call. *)
Definition tool_message (content tool_call_id : string) : pyval :=
  PyDict [("role", PyStr "tool");
          ("content", PyStr content);
          ("tool_call_id", PyStr tool_call_id)].

(** The text of [json.dumps({"recorded": "ok"})]. *)
Definition ack_text : string :=
  "{" ++ quoted "recorded" ++ ": " ++ quoted "ok" ++ "}".

(** The world after the line [DEBUG] mode prints, if it is on. *)
Definition debug_log (E : Env) (line : string) (w : World) : World :=
  if DEBUG E
  then {| stdout := (stdout w ++ [line])%list;
          posts := posts w;
          requests := requests w |}
  else w.

(** The POST that [push] makes for [message]. *)
Definition notification (E : Env) (message : pyval) : Post :=
  {| url := "https://api.pushover.net/1/messages.json";
     data := [("token", getenv E "PUSHOVER_TOKEN");
              ("user", getenv E "PUSHOVER_USER");
              ("message", message)] |}.

(** The world after [push message] has attempted its POST. *)
Definition pushed (E : Env) (message : pyval) (w : World) : World :=
  let w1 := debug_log E ("[DEBUG] Push: " ++ str E message) w in
  {| stdout := stdout w1;
     posts := (posts w1 ++ [notification E message])%list;
     requests := requests w1 |}.




(** The request [chat] sends for [messages]. *)
Definition request_for (self : Me) (messages : list pyval) : Request :=
  {| req_model := model_name self;
     req_messages := messages;
     req_tools := tools |}.

(** The world after that request was sent. *)
Definition requested (self : Me) (messages : list pyval) (w : World)
  : World :=
  {| stdout := stdout w;
     posts := posts w;
     requests := (requests w ++ [request_for self messages])%list |}.

(** The definitions a catalog lists: the ["function"] of each entry. *)
Definition catalog_definitions (catalog : pyval) : list pyval :=
  match catalog with
  | PyList entries =>
      flat_map (fun entry =>
                  match entry with
                  | PyDict d =>
                      match dict_get "function" d with
                      | Some f => [f]
                      | None => []
                      end
                  | _ => []
                  end) entries
  | _ => []
  end.

Definition field (k : string) (v : pyval) : option pyval :=
  match v with
  | PyDict d => dict_get k d
  | _ => None
  end.

Definition definition_name (definition : pyval) : option string :=
  match field "name" definition with
  | Some (PyStr n) => Some n
  | _ => None
  end.

(** The names of the tools declared to the model. *)
Definition catalog_names : list string :=
  flat_map (fun d => match definition_name d with
                     | Some n => [n]
                     | None => []
                     end)
           (catalog_definitions tools).

(** The parameter names a definition declares, and those it requires. *)
Definition declared_parameters (definition : pyval) : list string :=
  match field "parameters" definition with
  | Some parameters =>
      match field "properties" parameters with
      | Some (PyDict properties) => keys properties
      | _ => []
      end
  | None => []
  end.

Definition required_parameters (definition : pyval) : list pyval :=
  match field "parameters" definition with
  | Some parameters =>
      match field "required" parameters with
      | Some (PyList required) => required
      | _ => []
      end
  | None => []
  end.

(** Decoded arguments are well formed for a definition: a mapping with
    every required parameter and no parameter that is not declared. *)
Definition conforms (definition arguments : pyval) : bool :=
  match arguments with
  | PyDict kwargs =>
      forallb (fun k => mem k (declared_parameters definition)) (keys kwargs)
      && forallb (fun r => match r with
                           | PyStr r => mem r (keys kwargs)
                           | _ => false
                           end)
                 (required_parameters definition)
  | _ => false
  end.


(** The model's answer asks for tools: it has a first choice whose finish
    reason is ["tool_calls"]. *)
Definition asks_for_tools (r : result ChatCompletion) : bool :=
  match r with
  | Return response =>
      match choices response with
      | choice :: _ => String.eqb (finish_reason choice) "tool_calls"
      | [] => false
      end
  | Raise _ => false
  end.

(** The loop of [chat] after [n] passes that all left [done] false: the
    [messages] list and the world it has reached.  [None] when one of
    these passes ended the loop, with [done] set or with an exception. *)
Fixpoint passes (E : Env) (self : Me) (n : nat) (messages : list pyval)
    (w : World) : option (list pyval * World) :=
  match n with
  | O => Some (messages, w)
  | S n =>
      match loop_body E self messages w with
      | (Return (Again messages'), w') => passes E self n messages' w'
      | (Return (Done _), _) => None
      | (Raise _, _) => None
      end
  end.

(** A computation that sends nothing to the model. *)
Definition keeps_requests {A : Type} (m : M A) : Prop :=
  forall w, requests (snd (m w)) = requests w.

(** What [clean] makes of one entry of the history. *)
Definition cleaned (msg clean_msg : pyval) : Prop :=
  match msg with
  | PyDict d =>
      exists role content,
        dict_get "role" d = Some role
        /\ dict_get "content" d = Some content
        /\ clean_msg = PyDict [("role", role); ("content", content)]
  | _ => clean_msg = msg
  end.

(** An entry of the history that cleaning leaves as it is: not a dict, or
    a dict that holds just a role and a content, in this order. *)
Definition plain (msg : pyval) : Prop :=
  match msg with
  | PyDict [(k1, _); (k2, _)] => k1 = "role" /\ k2 = "content"
  | PyDict _ => False
  | _ => True
  end.

(** *** The checks a tool definition may pass *)

(** A definition with a non-empty name, a non-empty description and a
    [required] list that only names parameters it declares. *)
Definition valid_definition (definition : pyval) : bool :=
  match field "name" definition, field "description" definition with
  | Some (PyStr n), Some (PyStr d) =>
      negb (String.eqb n EmptyString) && negb (String.eqb d EmptyString)
      && forallb (fun r => match r with
                           | PyStr r => mem r (declared_parameters definition)
                           | _ => false
                           end)
                 (required_parameters definition)
  | _, _ => false
  end.

(** ** Concrete environments *)

Module Scenario.

Definition me : Me :=
  {| name := "Moamen";
     model_name := "llama-3.3-70b-versatile";
     linkedin := "Software engineer.";
     summary := "I build things." |}.

(** An answer of the model with a single choice. *)
Definition answer (finish : string) (content : option string)
    (tool_calls : option (list ToolCall)) : result ChatCompletion :=
  Return {| choices :=
              [{| finish_reason := finish;
                  message := {| msg_content := content;
                                msg_tool_calls := tool_calls |} |}] |}.

Definition tool_call (id name arguments : string) : ToolCall :=
  {| tc_id := id;
     tc_function := {| fn_name := name; fn_arguments := arguments |} |}.

(** A model that plays [script], one answer per request, and fails
    when the script is over. *)
Definition play (script : list (result ChatCompletion))
  : nat -> Request -> result ChatCompletion :=
  fun n _ => nth n script (Raise OpenAIError).

(** An environment run as a script, with [DEBUG] unset, a given
    network and a given model. *)
Definition env (network : nat -> Post -> result Z)
    (model : nat -> Request -> result ChatCompletion) : Env :=
  {| environ := fun key =>
       if String.eqb key "PUSHOVER_TOKEN" then Some "token"
       else if String.eqb key "PUSHOVER_USER" then Some "user"
       else if String.eqb key "GROQ_API_KEY" then Some "key"
       else None;
     run_as_script := true;
     interpreter_globals :=
       [("__doc__", OValue PyNone);
        ("__package__", OValue PyNone);
        ("__spec__", OValue PyNone);
        ("__file__", OValue (PyStr "app.py"));
        ("__builtins__", OModule "builtins")];
     parse_float := fun text => text;
     recursion_limit := 900;
     int_max_str_digits := 4300;
     repr := fun _ => "<object>";
     network := network;
     model := model;
     openai_client := fun _ _ => Return tt;
     pdf_pages := fun _ => Return ["Software engineer."];
     read_text := fun _ => Return "I build things.";
     external := fun _ _ => Raise TypeError |}.

(** The notification endpoint answers every POST with status 200. *)
Definition online : nat -> Post -> result Z := fun _ _ => Return 200%Z.

(** The notification endpoint cannot be reached. *)
Definition offline : nat -> Post -> result Z :=
  fun _ _ => Raise RequestException.

End Scenario.

Module C1_scenario.
Import Scenario.

(** The keys are not quoted: not valid JSON. *)
Definition bad_call : ToolCall :=
  tool_call "call_1" "record_user_details" "{email: a@b.com}".

Definition bad_answer : ChatCompletion :=
  {| choices :=
       [{| finish_reason := "tool_calls";
           message := {| msg_content := None;
                         msg_tool_calls := Some [bad_call] |} |}] |}.

(** The model first requests the malformed call and would then answer. *)
Definition E : Env :=
  env online (play [Return bad_answer; answer "stop" (Some "Thanks!") None]).

Definition messages : list pyval :=
  initial_messages me [] "My email is a@b.com".
End C1_scenario.

Module C2_scenario.
Import Scenario.

Definition unknown_call : ToolCall :=
  tool_call "call_1" "delete_everything" "{}".

Definition unknown_answer : ChatCompletion :=
  {| choices :=
       [{| finish_reason := "tool_calls";
           message := {| msg_content := None;
                         msg_tool_calls := Some [unknown_call] |} |}] |}.

Definition E : Env :=
  env online
    (play [Return unknown_answer; answer "stop" (Some "Sorry.") None]).

(** [tools] is a module-level name, bound to the catalog list. *)
Definition list_call : ToolCall := tool_call "call_1" "tools" "{}".

Definition list_answer : ChatCompletion :=
  {| choices :=
       [{| finish_reason := "tool_calls";
           message := {| msg_content := None;
                         msg_tool_calls := Some [list_call] |} |}] |}.

Definition E' : Env :=
  env online (play [Return list_answer; answer "stop" (Some "Sorry.") None]).

Definition messages : list pyval := initial_messages me [] "Clean up".
End C2_scenario.

Module C3_scenario.
Import Scenario.

Definition E : Env := env online (play []).

Definition push_call : ToolCall :=
  tool_call "call_1" "push"
    ("{" ++ quoted "message" ++ ": " ++ quoted "x" ++ "}").
End C3_scenario.

Module C4_scenario.
Import Scenario.

Definition call : ToolCall :=
  tool_call "call_1" "record_user_details"
    ("{" ++ quoted "email" ++ ": " ++ quoted "a@b.com" ++ "}").

Definition tool_answer : ChatCompletion :=
  {| choices :=
       [{| finish_reason := "tool_calls";
           message := {| msg_content := None;
                         msg_tool_calls := Some [call] |} |}] |}.

(** The notification endpoint is unreachable; the model would answer
    after the tool call. *)
Definition E : Env :=
  env offline
    (play [Return tool_answer; answer "stop" (Some "Thanks!") None]).

Definition messages : list pyval :=
  initial_messages me [] "My email is a@b.com".

Definition text : pyval :=
  PyStr "Recording Name not provided with email a@b.com and notes not provided".
End C4_scenario.

Module C5_scenario.
Import Scenario.

Definition calls : list ToolCall :=
  [tool_call "call_1" "record_user_details"
     ("{" ++ quoted "email" ++ ": " ++ quoted "a@b.com" ++ ", "
      ++ quoted "name" ++ ": " ++ quoted "Ada" ++ "}");
   tool_call "call_2" "record_unknown_question"
     ("{" ++ quoted "question" ++ ": " ++ quoted "Do you ski?" ++ "}")].

Definition tool_answer : ChatCompletion :=
  {| choices :=
       [{| finish_reason := "tool_calls";
           message := {| msg_content := None;
                         msg_tool_calls := Some calls |} |}] |}.

Definition script : list (result ChatCompletion) :=
  [Return tool_answer; answer "stop" (Some "Thanks, Ada!") None].

Definition E : Env := env online (play script).

(** The endpoint answers the first POST and is unreachable afterwards. *)
Definition flaky : nat -> Post -> result Z :=
  fun n _ => if Nat.eqb n 0 then Return 200%Z else Raise RequestException.

Definition E' : Env := env flaky (play script).

Definition messages : list pyval :=
  initial_messages me [] "I'm Ada, a@b.com. Do you ski?".
End C5_scenario.

Module C6_scenario.
Import Scenario.

(** A model that asks for tools (an empty list of calls) in its first
    [n] answers and then gives its final answer. *)
Definition asking (n : nat) : Env :=
  env online
    (fun k _ => if Nat.ltb k n
                then answer "tool_calls" None (Some [])
                else answer "stop" (Some "Done.") None).

(** A model that asks for tools in every answer. *)
Definition insisting : Env :=
  env online (fun _ _ => answer "tool_calls" None (Some [])).

Definition is_tool_message (m : pyval) : bool :=
  match m with
  | PyDict d =>
      match dict_get "role" d with
      | Some (PyStr role) => String.eqb role "tool"
      | _ => false
      end
  | _ => false
  end.

(** A model whose answer depends on the conversation it is sent, not on
    how many requests came before: it asks for a look-up (a tool that
    does not exist) as long as the conversation holds fewer than [n] tool
    messages, and then gives its final answer. *)
Definition curious (n : nat) : Env :=
  env online
    (fun _ request =>
       if Nat.ltb (length (filter is_tool_message (req_messages request))) n
       then answer "tool_calls" None (Some [tool_call "call_1" "look_up" "{}"])
       else answer "stop" (Some "Done.") None).
End C6_scenario.

Module C10_scenario.
Import Scenario.

(** A history as the chat interface hands it over: dicts with more
    fields than [role] and [content], and an entry that is not a dict. *)
Definition history : list pyval :=
  [PyDict [("role", PyStr "user");
           ("metadata", PyNone);
           ("content", PyStr "Hi");
           ("options", PyNone)];
   PyList [PyStr "Hi"; PyStr "Hello!"];
   PyDict [("content", PyStr "Hello!");
           ("role", PyStr "assistant");
           ("tool_calls", PyList [])]].

Definition clean_history : list pyval :=
  [PyDict [("role", PyStr "user"); ("content", PyStr "Hi")];
   PyList [PyStr "Hi"; PyStr "Hello!"];
   PyDict [("role", PyStr "assistant"); ("content", PyStr "Hello!")]].

Definition E : Env :=
  env online (play [answer "stop" (Some "I can pass your contact along.")
                      None]).
End C10_scenario.

Module C9_scenario.
(** The same persona held by an object set up for another model. *)
Definition other : Me :=
  {| name := "Moamen";
     model_name := "another-model";
     linkedin := "Software engineer.";
     summary := "I build things." |}.
End C9_scenario.

(** ** Notions used by the further properties *)


(** A computation that prints nothing. *)
Definition keeps_stdout {A : Type} (m : M A) : Prop :=
  forall w, stdout (snd (m w)) = stdout w.

(** A computation that attempts at most [n] POSTs and forgets none. *)
Definition posts_within {A : Type} (n : nat) (m : M A) : Prop :=
  forall w,
  exists k,
    k <= n /\ length (posts (snd (m w))) = length (posts w) + k.

(** The later request carries the messages of the earlier one and more
    after them: an assistant message, at least. *)
Definition extends (earlier later : Request) : Prop :=
  exists answer tail,
    req_messages later
    = (req_messages earlier ++ PyMessage answer :: tail)%list.




Module X_scenario.
Import Scenario.

Definition E : Env := env online (play []).

(** The required [email] is missing. *)
Definition no_email_call : ToolCall :=
  tool_call "call_1" "record_user_details"
    ("{" ++ quoted "name" ++ ": " ++ quoted "Ada" ++ "}").

Definition email_only_call : ToolCall :=
  tool_call "call_1" "record_user_details"
    ("{" ++ quoted "email" ++ ": " ++ quoted "a@b.com" ++ "}").

Definition question_call : ToolCall :=
  tool_call "call_2" "record_unknown_question"
    ("{" ++ quoted "question" ++ ": " ++ quoted "Do you ski?" ++ "}").

Definition module_call : ToolCall := tool_call "call_1" "os" "{}".

Definition class_call : ToolCall := tool_call "call_1" "Me" "{}".





(** A history entry without a ["content"]. *)
Definition bad_history : list pyval :=
  [PyDict [("role", PyStr "user"); ("content", PyStr "Hi")];
   PyDict [("role", PyStr "assistant")]].

Definition messages : list pyval := initial_messages me [] "Hello".

Definition tool_answer : ChatCompletion :=
  {| choices :=
       [{| finish_reason := "tool_calls";
           message := {| msg_content := None;
                         msg_tool_calls := Some [email_only_call] |} |}] |}.

Definition final_answer : ChatCompletion :=
  {| choices :=
       [{| finish_reason := "stop";
           message := {| msg_content := Some "Thanks, I'll be in touch!";
                         msg_tool_calls := None |} |}] |}.

(** The model asks for one tool call and then answers. *)
Definition E2 : Env := env online (play [Return tool_answer; Return final_answer]).

(** The messages of the second request of that turn. *)
Definition messages2 : list pyval :=
  (messages
   ++ [PyMessage {| msg_content := None;
                    msg_tool_calls := Some [email_only_call] |};
       tool_message ack_text "call_1"])%list.

Definition email_text : pyval :=
  PyStr "Recording Name not provided with email a@b.com and notes not provided".

Definition question_text : pyval :=
  PyStr "Recording unknown question: Do you ski?".

(** The world after that turn: two requests and one notification. *)
Definition final_world : World :=
  requested me messages2
    (pushed E2 email_text (requested me messages empty_world)).

(** The model cannot be reached. *)
Definition E_down : Env := env online (play []).

(** The model asks for tools but sends no list of calls. *)
Definition no_list_answer : ChatCompletion :=
  {| choices :=
       [{| finish_reason := "tool_calls";
           message := {| msg_content := None; msg_tool_calls := None |} |}] |}.

Definition E_no_list : Env := env online (play [Return no_list_answer]).

Definition E_no_choice : Env := env online (play [Return {| choices := [] |}]).

End X_scenario.

(** ** The decoder never runs out of fuel *)

Module json_facts.
Import json.

Local Open Scope char_scope.

Lemma skip_ws_length (s : list ascii) : length (skip_ws s) <= length s.
Proof.
  induction s as [|c r IH]; simpl; [lia|].
  destruct (is_ws c); simpl; lia.
Qed.

Lemma head_is_length (c : ascii) (s r : list ascii) :
  head_is c s = Some r -> length s = S (length r).
Proof.
  destruct s as [|x s]; simpl; [discriminate|].
  destruct (Ascii.eqb x c); [|discriminate].
  intros H; injection H as <-; reflexivity.
Qed.

Lemma span_digits_length (s ds r : list ascii) :
  span_digits s = (ds, r) -> length r <= length s.
Proof.
  revert ds r; induction s as [|c s IH]; simpl; intros ds r H.
  - injection H as <- <-; simpl; lia.
  - destruct (is_digit c).
    + destruct (span_digits s) as [ds' r'] eqn:Hs.
      injection H as <- <-. specialize (IH _ _ eq_refl). lia.
    + injection H as <- <-; simpl; lia.
Qed.

Lemma hex4_length (s r : list ascii) (u : N) :
  hex4 s = Some (u, r) -> length s = 4 + length r.
Proof.
  destruct s as [|a [|b [|c [|d s]]]]; simpl; try discriminate.
  destruct (hex_val a), (hex_val b), (hex_val c), (hex_val d);
    try discriminate.
  intros H; injection H as <- <-; reflexivity.
Qed.

Lemma scan_unicode_length (s r : list ascii) (cp : N) :
  scan_unicode s = Some (cp, r) -> length r < length s.
Proof.
  unfold scan_unicode.
  destruct (hex4 s) as [[u r0]|] eqn:H4; [|discriminate].
  apply hex4_length in H4.
  destruct ((55296 <=? u)%N && (u <=? 56319)%N).
  2: { intros H; injection H as <- <-; lia. }
  destruct (head_is "\" r0) as [r1|] eqn:H1.
  2: { intros H; injection H as <- <-; lia. }
  destruct (head_is "u" r1) as [r2|] eqn:H2.
  2: { intros H; injection H as <- <-; lia. }
  apply head_is_length in H1, H2.
  destruct (hex4 r2) as [[u2 r3]|] eqn:H4'.
  2: { intros H; injection H as <- <-; lia. }
  apply hex4_length in H4'.
  destruct ((56320 <=? u2)%N && (u2 <=? 57343)%N);
    intros H; injection H as <- <-; lia.
Qed.

Lemma scanstring_fuel (fuel : nat) (s acc : list ascii) :
  length s < fuel ->
  scanstring fuel s acc <> Exhausted /\
  forall str r, scanstring fuel s acc = Scanned str r -> length r < length s.
Proof.
  revert s acc; induction fuel as [|fuel IH]; intros s acc Hf; [lia|].
  simpl. destruct s as [|c r]; [split; [discriminate|discriminate]|].
  simpl in Hf.
  destruct (Ascii.eqb c "034").
  { split; [discriminate|]. intros str r' H; injection H as _ <-; simpl; lia. }
  destruct (Ascii.eqb c "\").
  - destruct r as [|e r']; [split; discriminate|].
    simpl in Hf.
    destruct (Ascii.eqb e "u").
    + destruct (scan_unicode r') as [[cp r'']|] eqn:Hu; [|split; discriminate].
      apply scan_unicode_length in Hu.
      destruct (IH r'' (acc ++ utf8_encode cp)%list ltac:(lia)) as [H1 H2].
      split; [exact H1|]. intros str r0 H. apply H2 in H. simpl; lia.
    + destruct (simple_escape e) as [x|]; [|split; discriminate].
      destruct (IH r' (acc ++ [x])%list ltac:(lia)) as [H1 H2].
      split; [exact H1|]. intros str r0 H. apply H2 in H. simpl; lia.
  - destruct (N_of_ascii c <? 32)%N; [split; discriminate|].
    destruct (IH r (acc ++ [c])%list ltac:(lia)) as [H1 H2].
    split; [exact H1|]. intros str r0 H. apply H2 in H. simpl; lia.
Qed.

Lemma starts_with_length (p s r : list ascii) :
  starts_with p s = Some r -> length s = length p + length r.
Proof.
  unfold starts_with. revert s; induction p as [|a p IH]; intros s.
  - intros H; injection H as <-; reflexivity.
  - destruct s as [|b s]; [discriminate|].
    destruct (Ascii.eqb a b); [|discriminate].
    intros H; apply IH in H; simpl; lia.
Qed.

Lemma scan_number_length (parse_float : string -> string) (max_digits : nat)
    (s r : list ascii) (x : result pyval) :
  scan_number parse_float max_digits s = Some (x, r) -> length r < length s.
Proof.
  unfold scan_number.
  set (sg := match head_is "-" s with Some r => (["-"], r) | None => ([], s) end).
  assert (Hsg : length (snd sg) <= length s).
  { subst sg. destruct (head_is "-" s) as [r0|] eqn:H; simpl; [|lia].
    apply head_is_length in H; lia. }
  destruct sg as [sign s1]; simpl in Hsg.
  set (ip := match s1 with
             | c :: r =>
                 if Ascii.eqb c "0" then Some (["0"], r)
                 else if is_digit c
                 then let (ds, r') := span_digits r in Some (c :: ds, r')
                 else None
             | [] => None
             end).
  assert (Hip : forall i r1, ip = Some (i, r1) -> length r1 < length s1).
  { subst ip. destruct s1 as [|c r0]; [discriminate|].
    intros i r1. destruct (Ascii.eqb c "0").
    - intros H; injection H as _ <-; simpl; lia.
    - destruct (is_digit c); [|discriminate].
      destruct (span_digits r0) as [ds r'] eqn:Hs.
      apply span_digits_length in Hs.
      intros H; injection H as _ <-; simpl; lia. }
  destruct ip as [[i r1]|]; [|discriminate].
  specialize (Hip _ _ eq_refl).
  set (fr := match head_is "." r1 with
             | Some r =>
                 match span_digits r with
                 | ([], _) => ([], r1)
                 | (ds, r') => ("." :: ds, r')
                 end
             | None => ([], r1)
             end).
  assert (Hfr : length (snd fr) <= length r1).
  { subst fr. destruct (head_is "." r1) as [r0|] eqn:H; simpl; [|lia].
    apply head_is_length in H.
    destruct (span_digits r0) as [ds r'] eqn:Hs.
    apply span_digits_length in Hs.
    destruct ds; simpl; lia. }
  destruct fr as [frac r2]; simpl in Hfr.
  set (ex := match r2 with
             | e :: r =>
                 if Ascii.eqb e "e" || Ascii.eqb e "E" then
                   let (sg, r') :=
                     match head_is "+" r with
                     | Some t => (["+"], t)
                     | None =>
                         match head_is "-" r with
                         | Some t => (["-"], t)
                         | None => ([], r)
                         end
                     end in
                   match span_digits r' with
                   | ([], _) => ([], r2)
                   | (ds, r'') => (e :: sg ++ ds, r'')
                   end
                 else ([], r2)
             | [] => ([], r2)
             end).
  assert (Hex : length (snd ex) <= length r2).
  { subst ex. destruct r2 as [|e r0]; simpl; [lia|].
    destruct (Ascii.eqb e "e" || Ascii.eqb e "E"); simpl; [|lia].
    set (q := match head_is "+" r0 with
              | Some t => (["+"], t)
              | None =>
                  match head_is "-" r0 with
                  | Some t => (["-"], t)
                  | None => ([], r0)
                  end
              end).
    assert (Hq : length (snd q) <= length r0).
    { subst q. destruct (head_is "+" r0) as [t|] eqn:H1; simpl.
      - apply head_is_length in H1; lia.
      - destruct (head_is "-" r0) as [t|] eqn:H2; simpl; [|lia].
        apply head_is_length in H2; lia. }
    destruct q as [sg' r']; simpl in Hq.
    destruct (span_digits r') as [ds r''] eqn:Hs.
    apply span_digits_length in Hs.
    destruct ds; simpl; lia. }
  destruct ex as [exp r3]; simpl in Hex.
  destruct frac, exp; intros H; injection H as _ <-; lia.
Qed.

Lemma scan_atom_fuel (parse_float : string -> string) (max_digits : nat)
    (s : list ascii) :
  scan_atom parse_float max_digits s <> Exhausted /\
  forall v r, scan_atom parse_float max_digits s = Scanned v r ->
              length r < length s.
Proof.
  unfold scan_atom.
  assert (Hlit : forall p (v : pyval) (k : scanned pyval),
             p <> [] ->
             (k <> Exhausted /\
              forall v' r, k = Scanned v' r -> length r < length s) ->
             match starts_with p s with
             | Some r => Scanned v r
             | None => k
             end <> Exhausted /\
             forall v' r,
               match starts_with p s with
               | Some r => Scanned v r
               | None => k
               end = Scanned v' r -> length r < length s).
  { intros p v k Hp Hk.
    destruct (starts_with p s) as [r0|] eqn:H; [|exact Hk].
    apply starts_with_length in H.
    split; [discriminate|].
    intros v' r E; injection E as _ <-.
    destruct p; [congruence|simpl in H; lia]. }
  do 3 (apply Hlit; [discriminate|]).
  destruct (scan_number parse_float max_digits s) as [[[v0|e0] r0]|] eqn:H.
  { apply scan_number_length in H. split; [discriminate|].
    intros v r1 E; injection E as _ <-; lia. }
  { split; discriminate. }
  do 3 (apply Hlit; [discriminate|]).
  split; discriminate.
Qed.

Section Fuel.

Variable parse_float : string -> string.
Variable max_digits : nat.

Lemma scan_once_S (fuel depth : nat) (s : list ascii) :
  scan_once parse_float max_digits (S fuel) depth s =
  match head_is "034" s with
  | Some r =>
      match scanstring (S (length r)) r [] with
      | Scanned str r' => Scanned (PyStr str) r'
      | Failed e => Failed e
      | Exhausted => Exhausted
      end
  | None =>
  match head_is "{" s with
  | Some r =>
      match depth with
      | O => Failed RecursionError
      | S depth =>
          match head_is "}" (skip_ws r) with
          | Some r' => Scanned (PyDict []) r'
          | None => scan_pairs parse_float max_digits fuel depth (skip_ws r) []
          end
      end
  | None =>
  match head_is "[" s with
  | Some r =>
      match depth with
      | O => Failed RecursionError
      | S depth =>
          match head_is "]" (skip_ws r) with
          | Some r' => Scanned (PyList []) r'
          | None => scan_items parse_float max_digits fuel depth (skip_ws r) []
          end
      end
  | None => scan_atom parse_float max_digits s
  end end end.
Proof. reflexivity. Qed.

Lemma scan_items_S (fuel depth : nat) (s : list ascii) (acc : list pyval) :
  scan_items parse_float max_digits (S fuel) depth s acc =
  match scan_once parse_float max_digits fuel depth s with
  | Scanned v r =>
      match head_is "," (skip_ws r) with
      | Some r' => scan_items parse_float max_digits fuel depth (skip_ws r') (acc ++ [v])%list
      | None =>
          match head_is "]" (skip_ws r) with
          | Some r' => Scanned (PyList (acc ++ [v])) r'
          | None => Failed JSONDecodeError
          end
      end
  | Failed e => Failed e
  | Exhausted => Exhausted
  end.
Proof. reflexivity. Qed.

Lemma scan_pairs_S (fuel depth : nat) (s : list ascii)
    (acc : list (string * pyval)) :
  scan_pairs parse_float max_digits (S fuel) depth s acc =
  match head_is "034" s with
  | Some r =>
      match scanstring (S (length r)) r [] with
      | Scanned key r1 =>
          match head_is ":" (skip_ws r1) with
          | Some r2 =>
              match scan_once parse_float max_digits fuel depth (skip_ws r2) with
              | Scanned v r3 =>
                  match head_is "," (skip_ws r3) with
                  | Some r4 =>
                      scan_pairs parse_float max_digits fuel depth (skip_ws r4)
                        (acc ++ [(key, v)])%list
                  | None =>
                      match head_is "}" (skip_ws r3) with
                      | Some r4 =>
                          Scanned
                            (PyDict (dict_of_pairs (acc ++ [(key, v)])))
                            r4
                      | None => Failed JSONDecodeError
                      end
                  end
              | Failed e => Failed e
              | Exhausted => Exhausted
              end
          | None => Failed JSONDecodeError
          end
      | Failed e => Failed e
      | Exhausted => Exhausted
      end
  | None => Failed JSONDecodeError
  end.
Proof. reflexivity. Qed.

(** With fuel for twice the characters of its input, the scanner does
    not run out of it, and what it scans is not empty. *)
Lemma scan_fuel (fuel : nat) :
  (forall depth s,
      2 * length s + 1 <= fuel ->
      scan_once parse_float max_digits fuel depth s <> Exhausted
      /\ forall v r,
           scan_once parse_float max_digits fuel depth s = Scanned v r ->
           length r < length s)
  /\ (forall depth s acc,
        2 * length s + 2 <= fuel ->
        scan_items parse_float max_digits fuel depth s acc <> Exhausted
        /\ forall v r,
             scan_items parse_float max_digits fuel depth s acc
             = Scanned v r ->
             length r < length s)
  /\ (forall depth s acc,
        2 * length s + 2 <= fuel ->
        scan_pairs parse_float max_digits fuel depth s acc <> Exhausted
        /\ forall v r,
             scan_pairs parse_float max_digits fuel depth s acc
             = Scanned v r ->
             length r < length s).
Proof.
  induction fuel as [|fuel [IHo [IHi IHp]]].
  { repeat split; intros; lia. }
  split; [|split].
  - intros depth s Hf. rewrite scan_once_S.
    destruct (head_is "034" s) as [r|] eqn:Hq.
    { apply head_is_length in Hq.
      destruct (scanstring_fuel (S (length r)) r [] ltac:(lia)) as [H1 H2].
      destruct (scanstring (S (length r)) r []) as [str r'| |] eqn:Hs;
        [|split; discriminate|congruence].
      specialize (H2 _ _ eq_refl).
      split; [discriminate|]. intros v r0 E; injection E as _ <-; lia. }
    destruct (head_is "{" s) as [r|] eqn:Hb.
    { apply head_is_length in Hb.
      destruct depth as [|depth]; [split; discriminate|].
      pose proof (skip_ws_length r) as Hw.
      destruct (head_is "}" (skip_ws r)) as [r'|] eqn:Hc.
      - apply head_is_length in Hc.
        split; [discriminate|]. intros v r0 E; injection E as _ <-; lia.
      - destruct (IHp depth (skip_ws r) [] ltac:(lia)) as [H1 H2].
        split; [exact H1|]. intros v r0 E; apply H2 in E; lia. }
    destruct (head_is "[" s) as [r|] eqn:Hk.
    { apply head_is_length in Hk.
      destruct depth as [|depth]; [split; discriminate|].
      pose proof (skip_ws_length r) as Hw.
      destruct (head_is "]" (skip_ws r)) as [r'|] eqn:Hc.
      - apply head_is_length in Hc.
        split; [discriminate|]. intros v r0 E; injection E as _ <-; lia.
      - destruct (IHi depth (skip_ws r) [] ltac:(lia)) as [H1 H2].
        split; [exact H1|]. intros v r0 E; apply H2 in E; lia. }
    apply scan_atom_fuel.
  - intros depth s acc Hf. rewrite scan_items_S.
    destruct (IHo depth s ltac:(lia)) as [H1 H2].
    destruct (scan_once parse_float max_digits fuel depth s)
      as [v r| |] eqn:Ho; [|split; discriminate|congruence].
    specialize (H2 _ _ eq_refl).
    pose proof (skip_ws_length r) as Hw.
    destruct (head_is "," (skip_ws r)) as [r'|] eqn:Hc.
    + apply head_is_length in Hc.
      pose proof (skip_ws_length r') as Hw'.
      destruct (IHi depth (skip_ws r') (acc ++ [v])%list ltac:(lia))
        as [H3 H4].
      split; [exact H3|]. intros v0 r0 E; apply H4 in E; lia.
    + destruct (head_is "]" (skip_ws r)) as [r'|] eqn:Hd;
        [|split; discriminate].
      apply head_is_length in Hd.
      split; [discriminate|]. intros v0 r0 E; injection E as _ <-; lia.
  - intros depth s acc Hf. rewrite scan_pairs_S.
    destruct (head_is "034" s) as [r|] eqn:Hq; [|split; discriminate].
    apply head_is_length in Hq.
    destruct (scanstring_fuel (S (length r)) r [] ltac:(lia)) as [H1 H2].
    destruct (scanstring (S (length r)) r []) as [key r1| |] eqn:Hs;
      [|split; discriminate|congruence].
    specialize (H2 _ _ eq_refl).
    pose proof (skip_ws_length r1) as Hw1.
    destruct (head_is ":" (skip_ws r1)) as [r2|] eqn:Hc;
      [|split; discriminate].
    apply head_is_length in Hc.
    pose proof (skip_ws_length r2) as Hw2.
    destruct (IHo depth (skip_ws r2) ltac:(lia)) as [H3 H4].
    destruct (scan_once parse_float max_digits fuel depth (skip_ws r2))
      as [v r3| |] eqn:Ho; [|split; discriminate|congruence].
    specialize (H4 _ _ eq_refl).
    pose proof (skip_ws_length r3) as Hw3.
    destruct (head_is "," (skip_ws r3)) as [r4|] eqn:Hd.
    + apply head_is_length in Hd.
      pose proof (skip_ws_length r4) as Hw4.
      destruct (IHp depth (skip_ws r4) (acc ++ [(key, v)])%list ltac:(lia))
        as [H5 H6].
      split; [exact H5|]. intros v0 r0 E; apply H6 in E; lia.
    + destruct (head_is "}" (skip_ws r3)) as [r4|] eqn:He;
        [|split; discriminate].
      apply head_is_length in He.
      split; [discriminate|]. intros v0 r0 E; injection E as _ <-; lia.
Qed.




(** The fuel [loads] gives the scanner is enough: the scan of the whole
    text ends with a value or an exception. *)
Lemma loads_has_fuel (depth : nat) (s : string) :
  let cs := skip_ws (list_ascii_of_string s) in
  scan_once parse_float max_digits (2 * length cs + 2) depth cs
  <> Exhausted.
Proof.
  intros cs.
  apply (proj1 (scan_fuel (2 * length cs + 2))). lia.
Qed.

End Fuel.

End json_facts.

(** ** Basic facts about computations *)

Lemma bind_return {A B : Type} (m : M A) (k : A -> M B) w a w' :
  m w = (Return a, w') -> bind m k w = k a w'.
Proof. intros H. unfold bind. rewrite H. reflexivity. Qed.

Lemma bind_raise {A B : Type} (m : M A) (k : A -> M B) w e w' :
  m w = (Raise e, w') -> bind m k w = (Raise e, w').
Proof. intros H. unfold bind. rewrite H. reflexivity. Qed.

Lemma debug_step E line w :
  (if DEBUG E then print line else ret tt) w
  = (Return tt, debug_log E line w).
Proof.
  unfold debug_log. destruct (DEBUG E); [reflexivity | ].
  unfold ret. reflexivity.
Qed.

Lemma debug_log_posts E line w : posts (debug_log E line w) = posts w.
Proof. unfold debug_log. destruct (DEBUG E); reflexivity. Qed.


(** *** Computations that send nothing to the model *)

Lemma keeps_ret {A : Type} (a : A) : keeps_requests (ret a).
Proof. intros w. reflexivity. Qed.

Lemma keeps_raise {A : Type} e : keeps_requests (@raise A e).
Proof. intros w. reflexivity. Qed.

Lemma keeps_lift {A : Type} (r : result A) : keeps_requests (lift r).
Proof. intros w. reflexivity. Qed.

Lemma keeps_print line : keeps_requests (print line).
Proof. intros w. reflexivity. Qed.

Lemma keeps_requests_post E u d : keeps_requests (requests_post E u d).
Proof. intros w. reflexivity. Qed.

Lemma keeps_bind {A B : Type} (m : M A) (k : A -> M B) :
  keeps_requests m -> (forall a, keeps_requests (k a)) ->
  keeps_requests (bind m k).
Proof.
  intros Hm Hk w. unfold bind.
  specialize (Hm w). destruct (m w) as [[a | e] w1]; simpl in Hm.
  - rewrite Hk. exact Hm.
  - exact Hm.
Qed.

Create HintDb keeps.
#[local] Hint Resolve keeps_ret keeps_raise keeps_lift keeps_print
  keeps_requests_post : keeps.

Ltac keeps_step :=
  repeat match goal with
         | |- keeps_requests (bind _ _) => apply keeps_bind; [ | intros ]
         end;
  auto with keeps.

Lemma keeps_push E message : keeps_requests (push E message).
Proof. unfold push. keeps_step. destruct (DEBUG E); auto with keeps. Qed.
#[local] Hint Resolve keeps_push : keeps.

Lemma keeps_record_user_details E email name notes :
  keeps_requests (record_user_details E email name notes).
Proof. unfold record_user_details. keeps_step. Qed.

Lemma keeps_record_unknown_question E question :
  keeps_requests (record_unknown_question E question).
Proof. unfold record_unknown_question. keeps_step. Qed.

Lemma keeps_arg kwargs param default :
  keeps_requests (arg kwargs param default).
Proof.
  unfold arg. destruct (dict_get param kwargs), default; auto with keeps.
Qed.

Lemma keeps_Me__init__ E : keeps_requests (Me__init__ E).
Proof. unfold Me__init__. keeps_step. Qed.
#[local] Hint Resolve keeps_record_user_details
  keeps_record_unknown_question keeps_arg keeps_Me__init__ : keeps.

Lemma keeps_call E o kwargs : keeps_requests (call E o kwargs).
Proof.
  destruct o; simpl; auto with keeps;
    match goal with
    | |- context [unexpected ?ps ?kw] => destruct (unexpected ps kw)
    end; auto with keeps; keeps_step.
Qed.
#[local] Hint Resolve keeps_call : keeps.

Lemma keeps_dispatch E tool_call : keeps_requests (dispatch E tool_call).
Proof.
  unfold dispatch. keeps_step.
  - unfold json_loads.
    destruct (loads _ _); auto with keeps.
  - destruct (DEBUG E); auto with keeps.
  - destruct (truthy _); auto with keeps.
    unfold call_with. destruct a; auto with keeps.
  - unfold json_dumps. auto with keeps.
Qed.
#[local] Hint Resolve keeps_dispatch : keeps.

Lemma keeps_handle_tool_call_from E tool_calls :
  forall results, keeps_requests (handle_tool_call_from E results tool_calls).
Proof.
  induction tool_calls as [ | tool_call rest IH]; intros results; simpl.
  - auto with keeps.
  - keeps_step.
Qed.

Lemma keeps_handle_tool_call E tool_calls :
  keeps_requests (handle_tool_call E tool_calls).
Proof.
  destruct tool_calls; simpl.
  - apply keeps_handle_tool_call_from.
  - auto with keeps.
Qed.

(** *** The notification *)

Lemma push_spec E message w :
  push E message w
  = (match network E (length (posts w)) (notification E message) with
     | Return _ => Return PyNone
     | Raise e => Raise e
     end,
     pushed E message w).
Proof.
  unfold push.
  rewrite (bind_return _ _ _ _ _ (debug_step E _ w)).
  unfold bind, requests_post, pushed, notification, ret.
  rewrite debug_log_posts.
  destruct (network E _ _); reflexivity.
Qed.



(** *** One pass of the loop *)

Lemma loop_body_raise_model E self messages w e :
  model E (length (requests w)) (request_for self messages) = Raise e ->
  loop_body E self messages w = (Raise e, requested self messages w).
Proof.
  intros H. unfold loop_body, bind, completions_create.
  fold (request_for self messages). rewrite H. reflexivity.
Qed.

Lemma loop_body_no_choice E self messages w response :
  model E (length (requests w)) (request_for self messages)
  = Return response ->
  choices response = [] ->
  loop_body E self messages w = (Raise IndexError, requested self messages w).
Proof.
  intros H Hc. unfold loop_body, bind, completions_create.
  fold (request_for self messages). rewrite H, Hc. reflexivity.
Qed.

Lemma loop_body_done E self messages w response choice rest :
  model E (length (requests w)) (request_for self messages)
  = Return response ->
  choices response = choice :: rest ->
  String.eqb (finish_reason choice) "tool_calls" = false ->
  loop_body E self messages w
  = (Return (Done choice), requested self messages w).
Proof.
  intros H Hc Hf. unfold loop_body, bind, completions_create.
  fold (request_for self messages). rewrite H, Hc. simpl. rewrite Hf.
  reflexivity.
Qed.

Lemma loop_body_tools E self messages w response choice rest :
  model E (length (requests w)) (request_for self messages)
  = Return response ->
  choices response = choice :: rest ->
  String.eqb (finish_reason choice) "tool_calls" = true ->
  loop_body E self messages w
  = match handle_tool_call E (msg_tool_calls (message choice))
            (requested self messages w) with
    | (Return tool_results, w') =>
        (Return (Again (messages ++ [PyMessage (message choice)]
                        ++ tool_results)%list), w')
    | (Raise e, w') => (Raise e, w')
    end.
Proof.
  intros H Hc Hf. unfold loop_body, bind, completions_create.
  fold (request_for self messages). rewrite H, Hc. simpl. rewrite Hf.
  unfold ret.
  destruct (handle_tool_call E _ _) as [[tool_results | e] w']; reflexivity.
Qed.

Lemma loop_body_requests E self messages w :
  requests (snd (loop_body E self messages w))
  = (requests w ++ [request_for self messages])%list.
Proof.
  destruct (model E (length (requests w)) (request_for self messages))
    as [response | e] eqn:H.
  - destruct (choices response) as [ | choice rest] eqn:Hc.
    + rewrite (loop_body_no_choice _ _ _ _ _ H Hc). reflexivity.
    + destruct (String.eqb (finish_reason choice) "tool_calls") eqn:Hf.
      * rewrite (loop_body_tools _ _ _ _ _ _ _ H Hc Hf).
        pose proof (keeps_handle_tool_call E (msg_tool_calls (message choice))
                      (requested self messages w)) as K.
        destruct (handle_tool_call E _ _) as [[tool_results | e] w'];
          simpl in K |- *; rewrite K; reflexivity.
      * rewrite (loop_body_done _ _ _ _ _ _ _ H Hc Hf). reflexivity.
  - rewrite (loop_body_raise_model _ _ _ _ _ H). reflexivity.
Qed.

(** Whatever way the loop ends, the first request it sent carried the
    [messages] it started with. *)
Lemma chat_loop_first_request E fuel :
  forall self messages w out,
    chat_loop E fuel self messages w = Some out ->
    exists later,
      requests (snd out)
      = (requests w ++ request_for self messages :: later)%list.
Proof.
  induction fuel as [ | fuel IH]; intros self messages w out H; simpl in H.
  - discriminate.
  - pose proof (loop_body_requests E self messages w) as R.
    destruct (loop_body E self messages w) as [[[messages' | choice] | e] w'];
      simpl in R.
    + apply IH in H. destruct H as [later H]. rewrite H, R.
      exists (request_for self messages' :: later).
      rewrite <- app_assoc. reflexivity.
    + inversion H; subst. exists []. exact R.
    + inversion H; subst. exists []. exact R.
Qed.

(** *** How the loop goes on after one pass *)

Lemma chat_loop_done E fuel self messages w response choice rest :
  model E (length (requests w)) (request_for self messages)
  = Return response ->
  choices response = choice :: rest ->
  String.eqb (finish_reason choice) "tool_calls" = false ->
  chat_loop E (S fuel) self messages w
  = Some (Return (msg_content (message choice)), requested self messages w).
Proof.
  intros H Hc Hf. simpl.
  rewrite (loop_body_done _ _ _ _ _ _ _ H Hc Hf). reflexivity.
Qed.

Lemma chat_loop_tools_raise E fuel self messages w response choice rest e w' :
  model E (length (requests w)) (request_for self messages)
  = Return response ->
  choices response = choice :: rest ->
  String.eqb (finish_reason choice) "tool_calls" = true ->
  handle_tool_call E (msg_tool_calls (message choice))
    (requested self messages w) = (Raise e, w') ->
  chat_loop E (S fuel) self messages w = Some (Raise e, w').
Proof.
  intros H Hc Hf Ht. simpl.
  rewrite (loop_body_tools _ _ _ _ _ _ _ H Hc Hf), Ht. reflexivity.
Qed.

Lemma chat_loop_tools_again E fuel self messages w response choice rest
    tool_results w' :
  model E (length (requests w)) (request_for self messages)
  = Return response ->
  choices response = choice :: rest ->
  String.eqb (finish_reason choice) "tool_calls" = true ->
  handle_tool_call E (msg_tool_calls (message choice))
    (requested self messages w) = (Return tool_results, w') ->
  chat_loop E (S fuel) self messages w
  = chat_loop E fuel self
      (messages ++ [PyMessage (message choice)] ++ tool_results)%list w'.
Proof.
  intros H Hc Hf Ht. simpl.
  rewrite (loop_body_tools _ _ _ _ _ _ _ H Hc Hf), Ht. reflexivity.
Qed.

(** *** Tool dispatch *)

Lemma dispatch_undecodable E tool_call w {e} :
  loads E (fn_arguments (tc_function tool_call)) = Raise e ->
  dispatch E tool_call w = (Raise e, w).
Proof.
  intros H. unfold dispatch, bind, json_loads. rewrite H. reflexivity.
Qed.

(** A tool call whose dispatch raises in every world makes the whole of
    [handle_tool_call] raise, wherever it stands in the list. *)
Lemma handle_tool_call_from_raises E tool_call after :
  (forall w, exists e w', dispatch E tool_call w = (Raise e, w')) ->
  forall before results w,
  exists e w',
    handle_tool_call_from E results (before ++ tool_call :: after)%list w
    = (Raise e, w').
Proof.
  intros Hd before.
  induction before as [ | first before IH]; intros results w; simpl.
  - destruct (Hd w) as [e [w' H]]. exists e, w'.
    apply bind_raise. exact H.
  - unfold bind at 1.
    destruct (dispatch E first w) as [[m | e] w1].
    + apply IH.
    + exists e, w1. reflexivity.
Qed.

(** ** C1: a tool call whose arguments are not valid JSON *)

(** C1 (amended).  When [json.loads] does not decode the arguments string
    of a tool call (the string is not valid JSON: [JSONDecodeError], or
    it is beyond a limit of the interpreter), the failure is not caught
    anywhere: [dispatch] raises the exception of the decoder and leaves
    the world as it was, no tool-role message is built,
    [handle_tool_call] raises for every list of tool calls that holds
    such a call, and a pass of [chat] whose model answer requests that
    list ends the turn with the propagated exception. *)
Theorem C1_decode_failure_aborts_turn :
  forall E tool_call e,
    loads E (fn_arguments (tc_function tool_call)) = Raise e ->
    (forall w, dispatch E tool_call w = (Raise e, w))
    /\ (forall after w,
          handle_tool_call E (Some (tool_call :: after)) w = (Raise e, w))
    /\ (forall before after w,
          exists e' w',
            handle_tool_call E (Some (before ++ tool_call :: after)%list) w
            = (Raise e', w'))
    /\ (forall before after self messages w fuel response choice rest,
          model E (length (requests w)) (request_for self messages)
          = Return response ->
          choices response = choice :: rest ->
          finish_reason choice = "tool_calls" ->
          msg_tool_calls (message choice)
          = Some (before ++ tool_call :: after)%list ->
          exists e' w',
            chat_loop E (S fuel) self messages w = Some (Raise e', w')).
Proof.
  intros E tool_call e Hbad.
  assert (Hd : forall w, dispatch E tool_call w = (Raise e, w))
    by (intros w; apply dispatch_undecodable; exact Hbad).
  assert (Hall : forall before after w,
             exists e' w',
               handle_tool_call E (Some (before ++ tool_call :: after)%list) w
               = (Raise e', w')).
  { intros before after w. simpl.
    apply handle_tool_call_from_raises.
    intros w0. exists e, w0. apply Hd. }
  repeat split.
  - exact Hd.
  - intros after w. simpl. apply bind_raise. apply Hd.
  - exact Hall.
  - intros before after self messages w fuel response choice rest
      Hm Hc Hf Ht.
    destruct (Hall before after (requested self messages w)) as [e' [w' H]].
    exists e', w'.
    apply (chat_loop_tools_raise E fuel self messages w response choice rest);
      try assumption.
    + rewrite Hf. reflexivity.
    + rewrite Ht. exact H.
Qed.

(** The amended C1 at a concrete malformed call. *)
Lemma C1_decode_failure_aborts_turn_witness :
  loads C1_scenario.E
    (fn_arguments (tc_function C1_scenario.bad_call)) = Raise JSONDecodeError
  /\ handle_tool_call C1_scenario.E (Some [C1_scenario.bad_call]) empty_world
     = (Raise JSONDecodeError, empty_world)
  /\ exists e w',
       chat_loop C1_scenario.E 2 Scenario.me C1_scenario.messages empty_world
       = Some (Raise e, w').
Proof.
  assert (H : loads C1_scenario.E
                (fn_arguments (tc_function C1_scenario.bad_call)) = Raise JSONDecodeError)
    by reflexivity.
  destruct (C1_decode_failure_aborts_turn C1_scenario.E C1_scenario.bad_call
              JSONDecodeError H)
    as [_ [H2 [_ H4]]].
  split; [exact H | split].
  - apply H2.
  - apply (H4 [] [] Scenario.me C1_scenario.messages empty_world 1%nat
             C1_scenario.bad_answer
             {| finish_reason := "tool_calls";
                message := {| msg_content := None;
                              msg_tool_calls := Some [C1_scenario.bad_call] |} |}
             []); reflexivity.
Defined.

(** C1 as stated fails: the malformed call yields no tool-role message,
    and the turn ends with [JSONDecodeError] after a single request,
    although the model had a final answer ready for the next one. *)
Lemma C1_counterexample :
  handle_tool_call C1_scenario.E (Some [C1_scenario.bad_call]) empty_world
  = (Raise JSONDecodeError, empty_world)
  /\ chat C1_scenario.E 5 Scenario.me "My email is a@b.com" [] empty_world
     = Some (Raise JSONDecodeError,
             requested Scenario.me C1_scenario.messages empty_world).
Proof. split; reflexivity. Qed.


(** A name that nothing binds is looked up as [None], which is false. *)
Lemma unbound_is_falsy E name :
  lookup name (module_globals E ++ interpreter_globals E)%list = None ->
  truthy (globals_get E name) = false.
Proof. intros H. unfold globals_get. rewrite H. reflexivity. Qed.

(** ** C2: a tool name that is not a registered implementation *)




(** ** C3: only the declared tools are to be invoked *)

Lemma globals_get_push E : globals_get E "push" = OPush.
Proof. reflexivity. Qed.

(** C3 (the code at the failing input).  [push] is not in the catalog, but
    a tool call that names it is dispatched to it in every environment:
    with arguments [{"message": m}] the function [push] runs on [m], the
    notification POST is made, and the tool message holds [null], the
    return value of [push]. *)
Theorem C3_push_is_dispatched :
  forall E id text message w,
    loads E text = Return (PyDict [("message", message)]) ->
    mem "push" catalog_names = false
    /\ dispatch E {| tc_id := id;
                     tc_function := {| fn_name := "push";
                                       fn_arguments := text |} |} w
       = (match network E (length (posts w)) (notification E message) with
          | Return _ => Return (tool_message "null" id)
          | Raise e => Raise e
          end,
          pushed E message (debug_log E "[DEBUG] Tool called: push" w)).
Proof.
  intros E id text message w Hl. split; [reflexivity | ].
  unfold dispatch, json_loads. simpl fn_arguments. simpl fn_name.
  rewrite Hl. unfold bind at 1. unfold lift at 1.
  rewrite (bind_return _ _ _ _ _ (debug_step E _ w)).
  rewrite globals_get_push. simpl truthy. cbv iota.
  unfold bind at 1. unfold call_with, call.
  change (unexpected ["message"] [("message", message)]) with false.
  cbv iota. unfold bind at 1. unfold arg.
  change (dict_get "message" [("message", message)]) with (Some message).
  unfold ret at 1. cbv iota beta.
  rewrite push_spec. rewrite debug_log_posts.
  destruct (network E _ _); reflexivity.
Qed.

(** The failing input of C3: the notification with the text chosen by the
    model is posted. *)
Lemma C3_push_is_dispatched_witness :
  loads C3_scenario.E
    (fn_arguments (tc_function C3_scenario.push_call))
  = Return (PyDict [("message", PyStr "x")])
  /\ dispatch C3_scenario.E C3_scenario.push_call empty_world
     = (Return (tool_message "null" "call_1"),
        {| stdout := [];
           posts := [notification C3_scenario.E (PyStr "x")];
           requests := [] |}).
Proof.
  assert (Hl : loads C3_scenario.E
                 (fn_arguments (tc_function C3_scenario.push_call))
               = Return (PyDict [("message", PyStr "x")])) by reflexivity.
  split; [exact Hl | ].
  exact (proj2 (C3_push_is_dispatched C3_scenario.E "call_1"
                  (fn_arguments (tc_function C3_scenario.push_call))
                  (PyStr "x") empty_world Hl)).
Defined.

(** *** Dispatch to the two tools *)









(** ** C4: a notification that cannot be delivered *)





(** ** C5: one tool message per tool call, in order *)





(** ** C6: the loop has no bound and ends when the model stops asking *)

Lemma loop_body_done_inv E self messages w choice w1 :
  loop_body E self messages w = (Return (Done choice), w1) ->
  exists response rest,
    model E (length (requests w)) (request_for self messages)
    = Return response
    /\ choices response = choice :: rest
    /\ String.eqb (finish_reason choice) "tool_calls" = false
    /\ w1 = requested self messages w.
Proof.
  intros H.
  destruct (model E (length (requests w)) (request_for self messages))
    as [response | e] eqn:Hm.
  - destruct (choices response) as [ | choice' rest] eqn:Hc.
    + rewrite (loop_body_no_choice _ _ _ _ _ Hm Hc) in H. discriminate.
    + destruct (String.eqb (finish_reason choice') "tool_calls") eqn:Hf.
      * rewrite (loop_body_tools _ _ _ _ _ _ _ Hm Hc Hf) in H.
        destruct (handle_tool_call E _ _) as [[tool_results | e] w'];
          discriminate.
      * rewrite (loop_body_done _ _ _ _ _ _ _ Hm Hc Hf) in H.
        inversion H; subst. exists response, rest. auto.
  - rewrite (loop_body_raise_model _ _ _ _ _ Hm) in H. discriminate.
Qed.

Lemma loop_body_again_inv E self messages w messages' w1 :
  loop_body E self messages w = (Return (Again messages'), w1) ->
  asks_for_tools (model E (length (requests w)) (request_for self messages))
  = true.
Proof.
  intros H. unfold asks_for_tools.
  destruct (model E (length (requests w)) (request_for self messages))
    as [response | e] eqn:Hm.
  - destruct (choices response) as [ | choice' rest] eqn:Hc.
    + rewrite (loop_body_no_choice _ _ _ _ _ Hm Hc) in H. discriminate.
    + destruct (String.eqb (finish_reason choice') "tool_calls") eqn:Hf.
      * reflexivity.
      * rewrite (loop_body_done _ _ _ _ _ _ _ Hm Hc Hf) in H. discriminate.
  - rewrite (loop_body_raise_model _ _ _ _ _ Hm) in H. discriminate.
Qed.

(** [k] passes that left [done] false are the first [k] passes of the
    loop, whatever the number of passes it is given beyond them. *)
Lemma passes_chat_loop E self :
  forall k messages w ms wk,
    passes E self k messages w = Some (ms, wk) ->
    forall fuel,
      chat_loop E (k + fuel) self messages w = chat_loop E fuel self ms wk.
Proof.
  induction k as [ | k IH]; intros messages w ms wk H fuel; simpl in H.
  - inversion H; subst. reflexivity.
  - simpl.
    destruct (loop_body E self messages w) as [[[messages' | choice] | e] w1];
      try discriminate.
    apply IH. exact H.
Qed.

(** Every pass sends one request. *)
Lemma passes_requests E self :
  forall k messages w ms wk,
    passes E self k messages w = Some (ms, wk) ->
    length (requests wk) = length (requests w) + k.
Proof.
  induction k as [ | k IH]; intros messages w ms wk H; simpl in H.
  - inversion H; subst. lia.
  - pose proof (loop_body_requests E self messages w) as R.
    destruct (loop_body E self messages w) as [[[messages' | choice] | e] w1];
      try discriminate.
    simpl in R. rewrite (IH _ _ _ _ H), R, length_app. simpl. lia.
Qed.

(** When one of the first [k] passes ended the loop, the loop has an
    outcome, the same with any number of passes from [k] on. *)
Lemma passes_over E self :
  forall k messages w,
    passes E self k messages w = None ->
    exists out,
      forall fuel, k <= fuel -> chat_loop E fuel self messages w = Some out.
Proof.
  induction k as [ | k IH]; intros messages w H; simpl in H.
  - discriminate.
  - destruct (loop_body E self messages w) as [[[messages' | choice] | e] w1]
      eqn:HL.
    + destruct (IH _ _ H) as [out Hout]. exists out.
      intros [ | fuel] Hle; [lia | ]. simpl. rewrite HL. apply Hout. lia.
    + exists (Return (msg_content (message choice)), w1).
      intros [ | fuel] Hle; [lia | ]. simpl. rewrite HL. reflexivity.
    + exists (Raise e, w1).
      intros [ | fuel] Hle; [lia | ]. simpl. rewrite HL. reflexivity.
Qed.

(** If the answer to the request that the loop sends after [k] rounds of
    tools, should it get that far, does not ask for tools, the loop ends
    within [k + 1] passes, with an outcome that more passes do not
    change. *)
Lemma chat_loop_terminates E self k messages w :
  (forall ms wk,
      passes E self k messages w = Some (ms, wk) ->
      asks_for_tools (model E (length (requests wk)) (request_for self ms))
      = false) ->
  exists out,
    forall fuel, k < fuel -> chat_loop E fuel self messages w = Some out.
Proof.
  intros Hk.
  destruct (passes E self k messages w) as [[ms wk] | ] eqn:Hp.
  - specialize (Hk ms wk eq_refl).
    destruct (loop_body E self ms wk) as [[[ms' | choice] | e] w1] eqn:HL.
    + apply loop_body_again_inv in HL. rewrite Hk in HL. discriminate.
    + exists (Return (msg_content (message choice)), w1). intros fuel Hlt.
      replace fuel with (k + S (fuel - S k)) by lia.
      rewrite (passes_chat_loop E self k messages w ms wk Hp).
      simpl. rewrite HL. reflexivity.
    + exists (Raise e, w1). intros fuel Hlt.
      replace fuel with (k + S (fuel - S k)) by lia.
      rewrite (passes_chat_loop E self k messages w ms wk Hp).
      simpl. rewrite HL. reflexivity.
  - destruct (passes_over E self k messages w Hp) as [out Hout].
    exists out. intros fuel Hlt. apply Hout. lia.
Qed.

(** A normal return of the loop comes from an answer that did not ask for
    tools, and it is the content of that answer. *)
Lemma chat_loop_return_inv E self :
  forall fuel messages w content w',
    chat_loop E fuel self messages w = Some (Return content, w') ->
    exists earlier request response choice rest,
      requests w' = (earlier ++ [request])%list
      /\ model E (length earlier) request = Return response
      /\ choices response = choice :: rest
      /\ finish_reason choice <> "tool_calls"
      /\ content = msg_content (message choice).
Proof.
  induction fuel as [ | fuel IH]; intros messages w content w' H; simpl in H.
  - discriminate.
  - destruct (loop_body E self messages w) as [[[messages' | choice] | e] w1]
      eqn:HL.
    + apply (IH messages' w1). exact H.
    + inversion H; subst.
      destruct (loop_body_done_inv _ _ _ _ _ _ HL)
        as [response [rest [Hm [Hc [Hf Hw]]]]].
      exists (requests w), (request_for self messages), response, choice, rest.
      subst. repeat split; try assumption.
      apply String.eqb_neq. exact Hf.
    + discriminate.
Qed.

Lemma asking_not_yet n self :
  forall fuel messages w,
    fuel + length (requests w) <= n ->
    chat_loop (C6_scenario.asking n) fuel self messages w = None.
Proof.
  induction fuel as [ | fuel IH]; intros messages w Hle.
  - reflexivity.
  - assert (Hlt : Nat.ltb (length (requests w)) n = true)
      by (apply Nat.ltb_lt; lia).
    rewrite (chat_loop_tools_again (C6_scenario.asking n) fuel self messages w
               {| choices :=
                    [{| finish_reason := "tool_calls";
                        message := {| msg_content := None;
                                      msg_tool_calls := Some [] |} |}] |}
               {| finish_reason := "tool_calls";
                  message := {| msg_content := None;
                                msg_tool_calls := Some [] |} |}
               [] [] (requested self messages w)).
    + apply IH. simpl. rewrite length_app. simpl. lia.
    + simpl. rewrite Hlt. reflexivity.
    + reflexivity.
    + reflexivity.
    + reflexivity.
Qed.

Lemma asking_then_done n self :
  forall d messages w,
    length (requests w) + d = n ->
    exists w',
      chat_loop (C6_scenario.asking n) (S d) self messages w
      = Some (Return (Some "Done."), w')
      /\ length (requests w') = S n.
Proof.
  induction d as [ | d IH]; intros messages w Hn.
  - assert (Hlt : Nat.ltb (length (requests w)) n = false)
      by (apply Nat.ltb_ge; lia).
    exists (requested self messages w). split.
    + apply (chat_loop_done (C6_scenario.asking n) 0 self messages w
               {| choices :=
                    [{| finish_reason := "stop";
                        message := {| msg_content := Some "Done.";
                                      msg_tool_calls := None |} |}] |}
               {| finish_reason := "stop";
                  message := {| msg_content := Some "Done.";
                                msg_tool_calls := None |} |} []).
      * simpl. rewrite Hlt. reflexivity.
      * reflexivity.
      * reflexivity.
    + simpl. rewrite length_app. simpl. lia.
  - assert (Hlt : Nat.ltb (length (requests w)) n = true)
      by (apply Nat.ltb_lt; lia).
    rewrite (chat_loop_tools_again (C6_scenario.asking n) (S d) self messages w
               {| choices :=
                    [{| finish_reason := "tool_calls";
                        message := {| msg_content := None;
                                      msg_tool_calls := Some [] |} |}] |}
               {| finish_reason := "tool_calls";
                  message := {| msg_content := None;
                                msg_tool_calls := Some [] |} |}
               [] [] (requested self messages w)).
    + apply IH. simpl. rewrite length_app. simpl. lia.
    + simpl. rewrite Hlt. reflexivity.
    + reflexivity.
    + reflexivity.
    + reflexivity.
Qed.

Lemma insisting_never_ends self :
  forall fuel messages w,
    chat_loop C6_scenario.insisting fuel self messages w = None.
Proof.
  induction fuel as [ | fuel IH]; intros messages w.
  - reflexivity.
  - rewrite (chat_loop_tools_again C6_scenario.insisting fuel self messages w
               {| choices :=
                    [{| finish_reason := "tool_calls";
                        message := {| msg_content := None;
                                      msg_tool_calls := Some [] |} |}] |}
               {| finish_reason := "tool_calls";
                  message := {| msg_content := None;
                                msg_tool_calls := Some [] |} |}
               [] [] (requested self messages w)).
    + apply IH.
    + reflexivity.
    + reflexivity.
    + reflexivity.
    + reflexivity.
Qed.

(** C6.  The loop of [chat] has no bound on its rounds and ends exactly
    when the model stops asking for tools.  With [messages] and the world
    as [k] rounds of tools have left them in the run of [chat]:
    - an answer to the request then sent whose finish reason is not
      ["tool_calls"] ends the loop: [chat] returns the content of that
      answer, after that request;
    - an answer whose finish reason is ["tool_calls"], once its tool calls
      are handled, does not end it: the loop is not over after these
      [k + 1] passes and goes on with the assistant message and the tool
      messages appended;
    - hence, for any model, whose answers may depend on the conversation,
      if the answer that the run of [chat] gets after [k] rounds of tools,
      should it get that far, does not ask for tools, [chat] terminates
      (with any number of passes above [k] it has one and the same
      outcome);
    - when [chat] returns, the last answer did not ask for tools and the
      value returned is its content;
    - for every [n] there is a model that makes [chat] go through exactly
      [n] rounds of tool dispatch, [n + 1] requests, before it returns;
    - with a model that asks for tools in every answer, no number of
      passes ends the loop. *)
Theorem C6_loop_unbounded_ends_when_model_stops :
  (forall E self text history clean_history w k ms wk response choice rest,
      clean_from [] history = Return clean_history ->
      passes E self k
        ([PyDict [("role", PyStr "system");
                  ("content", PyStr (system_prompt self))]]
         ++ clean_history
         ++ [PyDict [("role", PyStr "user"); ("content", PyStr text)]])%list
        w
      = Some (ms, wk) ->
      model E (length (requests wk))
        {| req_model := model_name self;
           req_messages := ms;
           req_tools := tools |}
      = Return response ->
      choices response = choice :: rest ->
      (finish_reason choice <> "tool_calls" ->
       forall fuel,
         k < fuel ->
         chat E fuel self text history w
         = Some (Return (msg_content (message choice)),
                 {| stdout := stdout wk;
                    posts := posts wk;
                    requests :=
                      (requests wk
                       ++ [{| req_model := model_name self;
                              req_messages := ms;
                              req_tools := tools |}])%list |}))
      /\ (finish_reason choice = "tool_calls" ->
          forall tool_results w',
            handle_tool_call E (msg_tool_calls (message choice))
              {| stdout := stdout wk;
                 posts := posts wk;
                 requests :=
                   (requests wk
                    ++ [{| req_model := model_name self;
                           req_messages := ms;
                           req_tools := tools |}])%list |}
            = (Return tool_results, w') ->
            chat E (S k) self text history w = None
            /\ forall fuel,
                 chat E (S k + fuel) self text history w
                 = chat_loop E fuel self
                     (ms ++ [PyMessage (message choice)] ++ tool_results)%list
                     w'))
  /\ (forall E self text history w k,
        (forall clean_history ms wk,
            clean_from [] history = Return clean_history ->
            passes E self k
              ([PyDict [("role", PyStr "system");
                        ("content", PyStr (system_prompt self))]]
               ++ clean_history
               ++ [PyDict [("role", PyStr "user");
                           ("content", PyStr text)]])%list
              w
            = Some (ms, wk) ->
            asks_for_tools
              (model E (length (requests wk))
                 {| req_model := model_name self;
                    req_messages := ms;
                    req_tools := tools |})
            = false) ->
        exists out,
          forall fuel, k < fuel ->
            chat E fuel self text history w = Some out)
  /\ (forall E fuel self text history w content w',
        chat E fuel self text history w = Some (Return content, w') ->
        exists earlier request response choice rest,
          requests w' = (earlier ++ [request])%list
          /\ model E (length earlier) request = Return response
          /\ choices response = choice :: rest
          /\ finish_reason choice <> "tool_calls"
          /\ content = msg_content (message choice))
  /\ (forall n self message,
        chat (C6_scenario.asking n) n self message [] empty_world = None
        /\ exists w',
             chat (C6_scenario.asking n) (S n) self message [] empty_world
             = Some (Return (Some "Done."), w')
             /\ length (requests w') = S n)
  /\ (forall fuel self message,
        chat C6_scenario.insisting fuel self message [] empty_world = None).
Proof.
  split; [ | split; [ | split; [ | split]]].
  - intros E self text history clean_history w k ms wk response choice rest
      Hc Hp Hm Hch.
    unfold chat. rewrite Hc.
    change (initial_messages self clean_history text)
      with ([PyDict [("role", PyStr "system");
                     ("content", PyStr (system_prompt self))]]
            ++ clean_history
            ++ [PyDict [("role", PyStr "user"); ("content", PyStr text)]])%list.
    split.
    + intros Hf fuel Hlt.
      replace fuel with (k + S (fuel - S k)) by lia.
      rewrite (passes_chat_loop E self k _ w ms wk Hp).
      apply (chat_loop_done E _ self ms wk response choice rest Hm Hch).
      apply String.eqb_neq. exact Hf.
    + intros Hf tool_results w' Ht.
      assert (Hnext : forall fuel,
                 chat_loop E (S fuel) self ms wk
                 = chat_loop E fuel self
                     (ms ++ [PyMessage (message choice)] ++ tool_results)%list
                     w').
      { intros fuel.
        apply (chat_loop_tools_again E fuel self ms wk response choice rest
                 tool_results w' Hm Hch); [ | exact Ht].
        rewrite Hf. reflexivity. }
      split.
      * replace (S k) with (k + 1) by lia.
        rewrite (passes_chat_loop E self k _ w ms wk Hp).
        rewrite Hnext. reflexivity.
      * intros fuel.
        replace (S k + fuel) with (k + S fuel) by lia.
        rewrite (passes_chat_loop E self k _ w ms wk Hp).
        apply Hnext.
  - intros E self text history w k Hk. unfold chat.
    destruct (clean_from [] history) as [clean_history | e].
    + apply chat_loop_terminates. intros ms wk Hp.
      apply (Hk clean_history ms wk eq_refl Hp).
    + exists (Raise e, w). reflexivity.
  - intros E fuel self text history w content w' H. unfold chat in H.
    destruct (clean_from [] history) as [clean_history | e].
    + apply (chat_loop_return_inv E self fuel
               (initial_messages self clean_history text) w).
      exact H.
    + discriminate.
  - intros n self message. split.
    + apply asking_not_yet. simpl. lia.
    + apply asking_then_done. reflexivity.
  - intros fuel self message. apply insisting_never_ends.
Qed.

(** C6 at a model whose answers depend on the conversation: it asks for a
    look-up until it has seen two tool messages.  No answer of it is
    fixed by the number of the request, and the turn ends at the third
    request. *)
Lemma C6_loop_unbounded_ends_when_model_stops_witness :
  (forall clean_history ms wk,
      clean_from [] [] = Return clean_history ->
      passes (C6_scenario.curious 2) Scenario.me 2
        ([PyDict [("role", PyStr "system");
                  ("content", PyStr (system_prompt Scenario.me))]]
         ++ clean_history
         ++ [PyDict [("role", PyStr "user"); ("content", PyStr "Hello")]])%list
        empty_world
      = Some (ms, wk) ->
      asks_for_tools
        (model (C6_scenario.curious 2) (length (requests wk))
           {| req_model := model_name Scenario.me;
              req_messages := ms;
              req_tools := tools |})
      = false)
  /\ (exists ms wk,
        passes (C6_scenario.curious 2) Scenario.me 2
          ([PyDict [("role", PyStr "system");
                    ("content", PyStr (system_prompt Scenario.me))]]
           ++ []
           ++ [PyDict [("role", PyStr "user");
                       ("content", PyStr "Hello")]])%list
          empty_world
        = Some (ms, wk)
        /\ length (filter C6_scenario.is_tool_message ms) = 2
        /\ length (requests wk) = 2)
  /\ (exists request,
        asks_for_tools (model (C6_scenario.curious 2) 2 request) = true)
  /\ chat (C6_scenario.curious 2) 2 Scenario.me "Hello" [] empty_world = None
  /\ exists out,
       fst out = Return (Some "Done.")
       /\ length (requests (snd out)) = 3
       /\ forall fuel, 2 < fuel ->
            chat (C6_scenario.curious 2) fuel Scenario.me "Hello" []
              empty_world
            = Some out.
Proof.
  assert (H : forall clean_history ms wk,
             clean_from [] [] = Return clean_history ->
             passes (C6_scenario.curious 2) Scenario.me 2
               ([PyDict [("role", PyStr "system");
                         ("content", PyStr (system_prompt Scenario.me))]]
                ++ clean_history
                ++ [PyDict [("role", PyStr "user");
                            ("content", PyStr "Hello")]])%list
               empty_world
             = Some (ms, wk) ->
             asks_for_tools
               (model (C6_scenario.curious 2) (length (requests wk))
                  {| req_model := model_name Scenario.me;
                     req_messages := ms;
                     req_tools := tools |})
             = false).
  { intros clean_history ms wk Hc Hp.
    inversion Hc; subst clean_history.
    vm_compute in Hp. inversion Hp; subst ms wk. reflexivity. }
  split; [exact H | ].
  split; [eexists; eexists; split; [reflexivity | split; reflexivity] | ].
  split; [exists (request_for Scenario.me []); reflexivity | ].
  split; [reflexivity | ].
  destruct (proj1 (proj2 C6_loop_unbounded_ends_when_model_stops)
              (C6_scenario.curious 2) Scenario.me "Hello" [] empty_world 2 H)
    as [out Hout].
  exists out.
  assert (H3 : chat (C6_scenario.curious 2) 3 Scenario.me "Hello" []
                 empty_world = Some out) by (apply Hout; lia).
  vm_compute in H3. inversion H3; subst out.
  split; [reflexivity | split; [reflexivity | ]].
  intros fuel Hlt. rewrite (Hout fuel Hlt). reflexivity.
Defined.

(** ** C10 and C7: the history sent to the model *)

Lemma clean_cleaned msg clean_msg :
  clean msg = Return clean_msg <-> cleaned msg clean_msg.
Proof.
  unfold clean, cleaned, getitem. destruct msg; split; intros H;
    try (inversion H; reflexivity); try (subst; reflexivity).
  - destruct (dict_get "role" items) as [role | ]; [ | discriminate].
    destruct (dict_get "content" items) as [content | ]; [ | discriminate].
    inversion H. exists role, content. auto.
  - destruct H as [role [content [Hr [Hc H]]]]. rewrite Hr, Hc, H.
    reflexivity.
Qed.

Lemma clean_from_Forall2 history :
  forall clean_history acc,
    Forall2 cleaned history clean_history ->
    clean_from acc history = Return (acc ++ clean_history)%list.
Proof.
  induction history as [ | msg rest IH]; intros clean_history acc H;
    inversion H as [ | ? clean_msg ? clean_rest Hm Hr]; subst; simpl.
  - rewrite app_nil_r. reflexivity.
  - apply clean_cleaned in Hm. rewrite Hm.
    rewrite (IH clean_rest _ Hr). rewrite <- app_assoc. reflexivity.
Qed.

Lemma clean_from_inv history :
  forall acc out,
    clean_from acc history = Return out ->
    exists clean_history,
      out = (acc ++ clean_history)%list
      /\ Forall2 cleaned history clean_history.
Proof.
  induction history as [ | msg rest IH]; intros acc out H; simpl in H.
  - inversion H. exists []. rewrite app_nil_r. auto.
  - destruct (clean msg) as [clean_msg | e] eqn:Hm; [ | discriminate].
    destruct (IH _ _ H) as [clean_rest [Ho Hr]].
    exists (clean_msg :: clean_rest). split.
    + rewrite Ho, <- app_assoc. reflexivity.
    + constructor; [apply clean_cleaned; exact Hm | exact Hr].
Qed.

Lemma Forall2_cleaned_total history :
  (forall d, In (PyDict d) history ->
             exists role content,
               dict_get "role" d = Some role
               /\ dict_get "content" d = Some content) ->
  exists clean_history, Forall2 cleaned history clean_history.
Proof.
  induction history as [ | msg rest IH]; intros H.
  - exists []. constructor.
  - destruct IH as [clean_rest Hr].
    { intros d Hd. apply H. right. exact Hd. }
    assert (Hm : exists clean_msg, cleaned msg clean_msg).
    { destruct msg; try (eexists; reflexivity).
      destruct (H items (or_introl eq_refl)) as [role [content [Hro Hco]]].
      exists (PyDict [("role", role); ("content", content)]).
      exists role, content. auto. }
    destruct Hm as [clean_msg Hm].
    exists (clean_msg :: clean_rest). constructor; assumption.
Qed.

Lemma Forall2_nth_error_cleaned history clean_history :
  Forall2 cleaned history clean_history ->
  forall i msg,
    nth_error history i = Some msg ->
    exists clean_msg,
      nth_error clean_history i = Some clean_msg /\ cleaned msg clean_msg.
Proof.
  induction 1 as [ | msg0 clean0 rest clean_rest H0 Hr IH]; intros i msg Hi.
  - destruct i; discriminate.
  - destruct i as [ | i]; simpl in Hi |- *.
    + inversion Hi; subst. exists clean0. auto.
    + apply IH. exact Hi.
Qed.

Lemma Forall2_length_cleaned history clean_history :
  Forall2 cleaned history clean_history ->
  length clean_history = length history.
Proof. induction 1; simpl; congruence. Qed.

(** The first request of [chat] carries the initial messages built from
    the cleaned history. *)
Lemma chat_first_request E fuel self text history clean_history w out :
  clean_from [] history = Return clean_history ->
  chat E fuel self text history w = Some out ->
  exists later,
    requests (snd out)
    = (requests w
       ++ request_for self (initial_messages self clean_history text)
       :: later)%list.
Proof.
  intros Hc H. unfold chat in H. rewrite Hc in H.
  apply (chat_loop_first_request E fuel). exact H.
Qed.

(** A pass that leaves [done] false has appended the assistant message
    and then the tool messages. *)
Lemma loop_body_again_extends E self messages w messages' w1 :
  loop_body E self messages w = (Return (Again messages'), w1) ->
  exists answer tool_results,
    messages' = (messages ++ PyMessage answer :: tool_results)%list.
Proof.
  intros H.
  destruct (model E (length (requests w)) (request_for self messages))
    as [response | e] eqn:Hm.
  - destruct (choices response) as [ | choice rest] eqn:Hc.
    + rewrite (loop_body_no_choice _ _ _ _ _ Hm Hc) in H. discriminate.
    + destruct (String.eqb (finish_reason choice) "tool_calls") eqn:Hf.
      * rewrite (loop_body_tools _ _ _ _ _ _ _ Hm Hc Hf) in H.
        destruct (handle_tool_call E _ _) as [[tool_results | e] w'];
          [ | discriminate].
        inversion H; subst.
        exists (message choice), tool_results.
        reflexivity.
      * rewrite (loop_body_done _ _ _ _ _ _ _ Hm Hc Hf) in H. discriminate.
  - rewrite (loop_body_raise_model _ _ _ _ _ Hm) in H. discriminate.
Qed.

(** The requests of a loop that has ended: the first one carries the
    [messages] the loop started with, and every later one carries the
    messages of each earlier one with an assistant message, at least,
    appended. *)
Lemma chat_loop_requests_grow E self :
  forall fuel messages w out,
    chat_loop E fuel self messages w = Some out ->
    exists later,
      requests (snd out)
      = (requests w ++ request_for self messages :: later)%list
      /\ Forall (fun r =>
                   req_model r = model_name self
                   /\ req_tools r = tools
                   /\ exists answer tail,
                        req_messages r
                        = (messages ++ PyMessage answer :: tail)%list)
           later
      /\ ForallOrdPairs extends (request_for self messages :: later).
Proof.
  induction fuel as [ | fuel IH]; intros messages w out H; simpl in H.
  - discriminate.
  - pose proof (loop_body_requests E self messages w) as R.
    destruct (loop_body E self messages w) as [[[messages' | choice] | e] w1]
      eqn:HL; simpl in R.
    + destruct (loop_body_again_extends _ _ _ _ _ _ HL)
        as [answer [tool_results Ht]].
      destruct (IH _ _ _ H) as [later [Hr [HF HP]]].
      assert (HF' : Forall (fun r =>
                              req_model r = model_name self
                              /\ req_tools r = tools
                              /\ exists answer tail,
                                   req_messages r
                                   = (messages
                                      ++ PyMessage answer :: tail)%list)
                      (request_for self messages' :: later)).
      { constructor.
        - repeat split. exists answer, tool_results. exact Ht.
        - eapply Forall_impl; [ | exact HF].
          intros r [H1 [H2 [answer' [tail' H3]]]]. repeat split; try assumption.
          exists answer, (tool_results ++ PyMessage answer' :: tail')%list.
          rewrite H3, Ht, <- app_assoc. reflexivity. }
      exists (request_for self messages' :: later). split; [ | split].
      * rewrite Hr, R, <- app_assoc. reflexivity.
      * exact HF'.
      * constructor; [ | exact HP].
        eapply Forall_impl; [ | exact HF'].
        intros r [_ [_ H3]]. exact H3.
    + inversion H; subst. exists [].
      split; [exact R | split; [constructor | ]].
      constructor; constructor.
    + inversion H; subst. exists [].
      split; [exact R | split; [constructor | ]].
      constructor; constructor.
Qed.

(** One pass of the loop. *)
Lemma chat_loop_S E fuel self messages w :
  chat_loop E (S fuel) self messages w
  = match loop_body E self messages w with
    | (Return (Again messages'), w') => chat_loop E fuel self messages' w'
    | (Return (Done choice), w') =>
        Some (Return (msg_content (message choice)), w')
    | (Raise e, w') => Some (Raise e, w')
    end.
Proof.
  simpl. destruct (loop_body E self messages w) as [[[? | ?] | ?] ?];
    reflexivity.
Qed.

(** C10.  When every dict of the prior history has a ["role"] and a
    ["content"], the history is cleaned entry by entry: the copy of a
    dict entry holds its ["role"] and its ["content"] and nothing else,
    and an entry that is not a dict is passed through unchanged.  These
    copies are what the model is sent: the first pass of [chat] sends,
    whatever the model and whatever comes of it, the request whose
    messages are the system instruction, the cleaned entries in order and
    the new user message; and in a turn that has ended, that request is
    the first of the turn and every later one starts with the same
    messages. *)
Theorem C10_history_copy_keeps_role_and_content :
  forall history,
    (forall d, In (PyDict d) history ->
               exists role content,
                 dict_get "role" d = Some role
                 /\ dict_get "content" d = Some content) ->
    exists clean_history,
      clean_from [] history = Return clean_history
      /\ length clean_history = length history
      /\ (forall i msg,
            nth_error history i = Some msg ->
            match msg with
            | PyDict d =>
                exists role content,
                  dict_get "role" d = Some role
                  /\ dict_get "content" d = Some content
                  /\ nth_error clean_history i
                     = Some (PyDict [("role", role); ("content", content)])
            | _ => nth_error clean_history i = Some msg
            end)
      /\ (forall E self text w,
            exists outcome w',
              loop_body E self
                ([PyDict [("role", PyStr "system");
                          ("content", PyStr (system_prompt self))]]
                 ++ clean_history
                 ++ [PyDict [("role", PyStr "user");
                             ("content", PyStr text)]])%list
                w
              = (outcome, w')
              /\ requests w'
                 = (requests w
                    ++ [{| req_model := model_name self;
                           req_messages :=
                             ([PyDict [("role", PyStr "system");
                                       ("content",
                                        PyStr (system_prompt self))]]
                              ++ clean_history
                              ++ [PyDict [("role", PyStr "user");
                                          ("content", PyStr text)]])%list;
                           req_tools := tools |}])%list
              /\ forall fuel,
                   chat E (S fuel) self text history w
                   = match outcome with
                     | Return (Again messages') =>
                         chat_loop E fuel self messages' w'
                     | Return (Done choice) =>
                         Some (Return (msg_content (message choice)), w')
                     | Raise e => Some (Raise e, w')
                     end)
      /\ (forall E fuel self text w out,
            chat E fuel self text history w = Some out ->
            exists later,
              requests (snd out)
              = (requests w
                 ++ {| req_model := model_name self;
                       req_messages :=
                         ([PyDict [("role", PyStr "system");
                                   ("content", PyStr (system_prompt self))]]
                          ++ clean_history
                          ++ [PyDict [("role", PyStr "user");
                                      ("content", PyStr text)]])%list;
                       req_tools := tools |}
                 :: later)%list
              /\ Forall (fun r =>
                           exists tail,
                             req_messages r
                             = (([PyDict [("role", PyStr "system");
                                          ("content",
                                           PyStr (system_prompt self))]]
                                 ++ clean_history
                                 ++ [PyDict [("role", PyStr "user");
                                             ("content", PyStr text)]])
                                ++ tail)%list)
                   later).
Proof.
  intros history Hkeys.
  destruct (Forall2_cleaned_total history Hkeys) as [clean_history HF].
  pose proof (clean_from_Forall2 history clean_history [] HF) as Hc.
  simpl in Hc.
  exists clean_history. split; [exact Hc | split; [ | split; [ | split]]].
  - apply Forall2_length_cleaned. exact HF.
  - intros i msg Hi.
    destruct (Forall2_nth_error_cleaned _ _ HF i msg Hi) as [clean_msg [Hn Hm]].
    unfold cleaned in Hm. destruct msg; try (subst; exact Hn).
    destruct Hm as [role [content [Hro [Hco Hm]]]].
    exists role, content. subst. auto.
  - intros E self text w.
    pose proof (loop_body_requests E self
                  (initial_messages self clean_history text) w) as R.
    unfold chat. rewrite Hc.
    change (initial_messages self clean_history text)
      with ([PyDict [("role", PyStr "system");
                     ("content", PyStr (system_prompt self))]]
            ++ clean_history
            ++ [PyDict [("role", PyStr "user"); ("content", PyStr text)]])%list
      in R |- *.
    destruct (loop_body E self _ w) as [outcome w'] eqn:HL.
    exists outcome, w'. split; [reflexivity | split; [exact R | ]].
    intros fuel. rewrite chat_loop_S, HL.
    destruct outcome as [[messages' | choice] | e]; reflexivity.
  - intros E fuel self text w out H.
    unfold chat in H. rewrite Hc in H.
    destruct (chat_loop_requests_grow E self fuel _ w out H)
      as [later [Hr [HF' _]]].
    exists later. split; [exact Hr | ].
    eapply Forall_impl; [ | exact HF'].
    intros r [_ [_ [answer [tail Ht]]]].
    exists (PyMessage answer :: tail). exact Ht.
Qed.

Lemma C10_scenario_history_has_keys :
  forall d, In (PyDict d) C10_scenario.history ->
            exists role content,
              dict_get "role" d = Some role
              /\ dict_get "content" d = Some content.
Proof.
  intros d [H | [H | [H | []]]]; inversion H; subst;
    eexists; eexists; split; reflexivity.
Qed.

(** C10 on a history of three entries, two of them dicts with more fields
    than a role and a content: the request of the turn carries the copies
    without these fields. *)
Lemma C10_history_copy_keeps_role_and_content_witness :
  (forall d, In (PyDict d) C10_scenario.history ->
             exists role content,
               dict_get "role" d = Some role
               /\ dict_get "content" d = Some content)
  /\ exists clean_history,
       clean_history
       = [PyDict [("role", PyStr "user"); ("content", PyStr "Hi")];
          PyList [PyStr "Hi"; PyStr "Hello!"];
          PyDict [("role", PyStr "assistant"); ("content", PyStr "Hello!")]]
       /\ exists w',
            chat C10_scenario.E 1 Scenario.me "What's your email?"
              C10_scenario.history empty_world
            = Some (Return (Some "I can pass your contact along."), w')
            /\ requests w'
               = [{| req_model := "llama-3.3-70b-versatile";
                     req_messages :=
                       ([PyDict [("role", PyStr "system");
                                 ("content",
                                  PyStr (system_prompt Scenario.me))]]
                        ++ clean_history
                        ++ [PyDict [("role", PyStr "user");
                                    ("content",
                                     PyStr "What's your email?")]])%list;
                     req_tools := tools |}].
Proof.
  split; [exact C10_scenario_history_has_keys | ].
  destruct (C10_history_copy_keeps_role_and_content C10_scenario.history
              C10_scenario_history_has_keys)
    as [clean_history [Hc [_ [_ [Hfirst _]]]]].
  exists clean_history.
  assert (Hk : clean_history = C10_scenario.clean_history).
  { assert (Hc' : clean_from [] C10_scenario.history
                  = Return C10_scenario.clean_history) by reflexivity.
    rewrite Hc in Hc'. inversion Hc'. reflexivity. }
  split; [exact Hk | ].
  destruct (Hfirst C10_scenario.E Scenario.me "What's your email?"
              empty_world) as [outcome [w' [HL [Hr Hchat]]]].
  exists w'. split.
  - rewrite (Hchat 0%nat).
    assert (Ho : outcome
                 = Return (Done {| finish_reason := "stop";
                                   message :=
                                     {| msg_content :=
                                          Some "I can pass your contact along.";
                                        msg_tool_calls := None |} |})).
    { rewrite Hk in HL. vm_compute in HL. inversion HL. reflexivity. }
    rewrite Ho. reflexivity.
  - exact Hr.
Defined.

(** ** C7: the first request and the direct answer *)

(** C7 (amended).  When the cleaning of the prior history succeeds, the
    message sequence of the first request is the system instruction,
    then the cleaned history (not the prior history as it was given),
    then the new user message; and if the first answer of the model does
    not ask for tools, [chat] returns the content of that answer after
    this single request, with no tool dispatched: nothing is printed and
    no notification is sent. *)
Theorem C7_first_request_and_direct_answer :
  forall E self text history clean_history w,
    clean_from [] history = Return clean_history ->
    (forall fuel out,
        chat E fuel self text history w = Some out ->
        exists later,
          requests (snd out)
          = (requests w
             ++ request_for self
                  ([PyDict [("role", PyStr "system");
                            ("content", PyStr (system_prompt self))]]
                   ++ clean_history
                   ++ [PyDict [("role", PyStr "user");
                               ("content", PyStr text)]])
             :: later)%list)
    /\ (forall fuel response choice rest,
          model E (length (requests w))
            (request_for self (initial_messages self clean_history text))
          = Return response ->
          choices response = choice :: rest ->
          finish_reason choice <> "tool_calls" ->
          chat E (S fuel) self text history w
          = Some (Return (msg_content (message choice)),
                  {| stdout := stdout w;
                     posts := posts w;
                     requests :=
                       (requests w
                        ++ [request_for self
                              (initial_messages self clean_history text)])%list
                  |})).
Proof.
  intros E self text history clean_history w Hc. split.
  - intros fuel out H.
    apply (chat_first_request E fuel self text history clean_history w out Hc H).
  - intros fuel response choice rest Hm Hch Hf.
    unfold chat. rewrite Hc.
    apply (chat_loop_done E fuel self _ w response choice rest Hm Hch).
    apply String.eqb_neq. exact Hf.
Qed.

Lemma clean_from_plain history :
  Forall plain history -> clean_from [] history = Return history.
Proof.
  intros H. apply (clean_from_Forall2 history history []).
  induction H as [ | msg rest Hm Hr IH]; constructor; [ | exact IH].
  unfold cleaned. destruct msg; try reflexivity.
  destruct items as [ | [k1 v1] [ | [k2 v2] [ | ? ?]]]; simpl in Hm;
    try contradiction.
  destruct Hm; subst. exists v1, v2. auto.
Qed.

(** The amended C7 on the direct answer of the specification. *)
Lemma C7_first_request_and_direct_answer_witness :
  clean_from [] C10_scenario.history = Return C10_scenario.clean_history
  /\ chat C10_scenario.E 1 Scenario.me "What's your email?"
       C10_scenario.history empty_world
     = Some (Return (Some "I can pass your contact along."),
             {| stdout := [];
                posts := [];
                requests :=
                  [request_for Scenario.me
                     (initial_messages Scenario.me C10_scenario.clean_history
                        "What's your email?")] |}).
Proof.
  assert (Hc : clean_from [] C10_scenario.history
               = Return C10_scenario.clean_history) by reflexivity.
  split; [exact Hc | ].
  apply (proj2 (C7_first_request_and_direct_answer C10_scenario.E Scenario.me
                  "What's your email?" C10_scenario.history
                  C10_scenario.clean_history empty_world Hc)
           0%nat
           {| choices :=
                [{| finish_reason := "stop";
                    message :=
                      {| msg_content := Some "I can pass your contact along.";
                         msg_tool_calls := None |} |}] |}
           {| finish_reason := "stop";
              message :=
                {| msg_content := Some "I can pass your contact along.";
                   msg_tool_calls := None |} |}
           []).
  - reflexivity.
  - reflexivity.
  - discriminate.
Defined.

(** C7 as stated fails: the messages of the first request are not the
    system instruction, the prior history and the user message; the
    entries of the history have lost their other fields. *)
Lemma C7_counterexample :
  option_map (fun out => map req_messages (requests (snd out)))
    (chat C10_scenario.E 1 Scenario.me "What's your email?"
       C10_scenario.history empty_world)
  = Some [([PyDict [("role", PyStr "system");
                    ("content", PyStr (system_prompt Scenario.me))]]
           ++ C10_scenario.clean_history
           ++ [PyDict [("role", PyStr "user");
                       ("content", PyStr "What's your email?")]])%list]
  /\ ([PyDict [("role", PyStr "system");
               ("content", PyStr (system_prompt Scenario.me))]]
      ++ C10_scenario.clean_history
      ++ [PyDict [("role", PyStr "user");
                  ("content", PyStr "What's your email?")]])%list
     <> ([PyDict [("role", PyStr "system");
                  ("content", PyStr (system_prompt Scenario.me))]]
         ++ C10_scenario.history
         ++ [PyDict [("role", PyStr "user");
                     ("content", PyStr "What's your email?")]])%list.
Proof.
  split; [reflexivity | ].
  intros H. apply app_inv_head in H. discriminate H.
Qed.

(** ** The tool catalog *)

(** X15.  The catalog sent to the model lists two definitions, those of
    [record_user_details] and [record_unknown_question], in this order,
    and each one, as written, has a non-empty name, a non-empty
    description and a [required] list that only names parameters it
    declares: [email] among [email], [name] and [notes], and [question]. *)
Theorem catalog_definitions_pass_the_checks :
  catalog_definitions tools
  = [record_user_details_json; record_unknown_question_json]
  /\ catalog_names = ["record_user_details"; "record_unknown_question"]
  /\ forallb valid_definition (catalog_definitions tools) = true
  /\ declared_parameters record_user_details_json = ["email"; "name"; "notes"]
  /\ required_parameters record_user_details_json = [PyStr "email"]
  /\ declared_parameters record_unknown_question_json = ["question"]
  /\ required_parameters record_unknown_question_json = [PyStr "question"].
Proof. repeat split; reflexivity. Qed.

(** ** C9: the system instruction *)

Lemma append_assoc (a b c : string) : (a ++ b) ++ c = a ++ (b ++ c).
Proof.
  induction a as [ | ch a IH]; simpl.
  - reflexivity.
  - rewrite IH. reflexivity.
Qed.

(** C9.  [system_prompt] is a function of the name, the summary and the
    profile text alone: two personas that agree on these three get the
    same instruction, whatever else they hold; and the instruction
    embeds the summary and the profile text verbatim, each under its
    heading. *)
Theorem C9_system_prompt_deterministic_and_verbatim :
  (forall self self',
      name self = name self' ->
      summary self = summary self' ->
      linkedin self = linkedin self' ->
      system_prompt self = system_prompt self')
  /\ (forall self,
        exists before after,
          system_prompt self
          = before
            ++ ("## Summary:" ++ nl ++ summary self ++ nl ++ nl
                ++ "## LinkedIn Profile:" ++ nl ++ linkedin self ++ nl ++ nl)
            ++ after).
Proof.
  split.
  - intros self self' Hn Hs Hl. unfold system_prompt.
    rewrite Hn, Hs, Hl. reflexivity.
  - intros self.
    exists ("You are acting as " ++ name self
            ++ ". You are answering questions on " ++ name self
            ++ "'s website, "
            ++ "particularly questions related to " ++ name self
            ++ "'s career, background, skills and experience. "
            ++ "Your responsibility is to represent " ++ name self
            ++ " for interactions on the website as faithfully as possible. "
            ++ "You are given a summary of " ++ name self
            ++ "'s background and LinkedIn profile which you can use to answer questions. "
            ++ "Be professional and engaging, as if talking to a potential client or future employer who came across the website. "
            ++ "If you don't know the answer to any question, use your record_unknown_question tool to record the question. "
            ++ "If the user is engaging in discussion, try to steer them towards getting in touch via email; "
            ++ "ask for their email and record it using your record_user_details tool."
            ++ nl ++ nl).
    exists ("With this context, please chat with the user, always staying in character as "
            ++ name self ++ ".").
    unfold system_prompt. rewrite !append_assoc. reflexivity.
Qed.

(** C9 on two personas with the same name, summary and profile text. *)
Lemma C9_system_prompt_deterministic_and_verbatim_witness :
  name Scenario.me = name C9_scenario.other
  /\ summary Scenario.me = summary C9_scenario.other
  /\ linkedin Scenario.me = linkedin C9_scenario.other
  /\ system_prompt Scenario.me = system_prompt C9_scenario.other.
Proof.
  split; [reflexivity | split; [reflexivity | split; [reflexivity | ]]].
  apply (proj1 C9_system_prompt_deterministic_and_verbatim
           Scenario.me C9_scenario.other); reflexivity.
Defined.

(** ** Further properties of tool dispatch *)

(** Dispatch once the arguments are decoded: the debug line, the call (or
    the empty dict for a false binding), and the JSON text of the result. *)
Lemma dispatch_decoded E tool_call arguments w :
  loads E (fn_arguments (tc_function tool_call))
  = Return arguments ->
  dispatch E tool_call w
  = match (if truthy (globals_get E (fn_name (tc_function tool_call)))
           then call_with E (globals_get E (fn_name (tc_function tool_call)))
                  arguments
           else ret (PyDict []))
            (debug_log E
               ("[DEBUG] Tool called: " ++ fn_name (tc_function tool_call))
               w) with
    | (Return result, w') =>
        (match json.dumps result with
         | Return content => Return (tool_message content (tc_id tool_call))
         | Raise e => Raise e
         end, w')
    | (Raise e, w') => (Raise e, w')
    end.
Proof.
  intros Hl. unfold dispatch, json_loads. rewrite Hl.
  unfold bind at 1. unfold lift at 1.
  rewrite (bind_return _ _ _ _ _ (debug_step E _ w)).
  unfold bind at 1.
  match goal with
  | |- match ?c with _ => _ end = _ => destruct c as [[result | e] w']
  end; [ | reflexivity].
  unfold bind, json_dumps, lift, ret.
  destruct (json.dumps result); reflexivity.
Qed.

Lemma dispatch_shape E tool_call w m w' :
  dispatch E tool_call w = (Return m, w') ->
  exists result content,
    json.dumps result = Return content
    /\ m = tool_message content (tc_id tool_call).
Proof.
  intros H.
  destruct (loads E (fn_arguments (tc_function tool_call)))
    as [arguments | ] eqn:Hl.
  - rewrite (dispatch_decoded E tool_call arguments w Hl) in H.
    match type of H with
    | match ?c with _ => _ end = _ => destruct c as [[result | e] w1]
    end; [ | discriminate].
    destruct (json.dumps result) as [content | e] eqn:Hd; [ | discriminate].
    inversion H; subst. exists result, content. auto.
  - rewrite (dispatch_undecodable E tool_call w Hl) in H. discriminate.
Qed.

Lemma handle_tool_call_from_shape E tool_calls :
  forall results w out w',
    handle_tool_call_from E results tool_calls w = (Return out, w') ->
    exists messages,
      out = (results ++ messages)%list
      /\ Forall2 (fun tool_call m =>
                    exists result content,
                      json.dumps result = Return content
                      /\ m = tool_message content (tc_id tool_call))
           tool_calls messages.
Proof.
  induction tool_calls as [ | tool_call rest IH]; intros results w out w' H;
    simpl in H.
  - inversion H; subst. exists []. rewrite app_nil_r. split; constructor.
  - unfold bind in H.
    destruct (dispatch E tool_call w) as [[m | e] w1] eqn:Hd; [ | discriminate].
    destruct (IH _ _ _ _ H) as [messages [Ho HF]].
    exists (m :: messages). split.
    + rewrite Ho, <- app_assoc. reflexivity.
    + constructor; [ | exact HF]. apply (dispatch_shape E tool_call w m w1 Hd).
Qed.

Lemma Forall2_nth_error_left {A B : Type} (R : A -> B -> Prop) l1 l2 :
  Forall2 R l1 l2 ->
  forall i a,
    nth_error l1 i = Some a ->
    exists b, nth_error l2 i = Some b /\ R a b.
Proof.
  induction 1 as [ | a0 b0 l1 l2 H0 Hr IH]; intros i a Hi.
  - destruct i; discriminate.
  - destruct i as [ | i]; simpl in Hi |- *.
    + inversion Hi; subst. exists b0. auto.
    + apply IH. exact Hi.
Qed.

(** X7.  Whenever [handle_tool_call] returns, whatever the names and the
    arguments of the calls were, it returns one message per tool call, in
    the order of the calls; each is a tool-role message that carries the
    id of its call and the JSON text of a result. *)
Theorem handle_tool_call_returns_one_message_per_call :
  forall E tool_calls w results w',
    handle_tool_call E (Some tool_calls) w = (Return results, w') ->
    length results = length tool_calls
    /\ forall i tool_call,
         nth_error tool_calls i = Some tool_call ->
         exists result content,
           json.dumps result = Return content
           /\ nth_error results i
              = Some (PyDict [("role", PyStr "tool");
                              ("content", PyStr content);
                              ("tool_call_id", PyStr (tc_id tool_call))]).
Proof.
  intros E tool_calls w results w' H. simpl in H.
  destruct (handle_tool_call_from_shape E tool_calls [] w results w' H)
    as [messages [Ho HF]].
  simpl in Ho. subst results. split.
  - symmetry. apply (Forall2_length HF).
  - intros i tool_call Hi.
    destruct (Forall2_nth_error_left _ _ _ HF i tool_call Hi)
      as [m [Hm [result [content [Hd Hs]]]]].
    exists result, content. subst m. auto.
Qed.

Lemma handle_tool_call_returns_one_message_per_call_witness :
  handle_tool_call X_scenario.E
    (Some [X_scenario.email_only_call; X_scenario.question_call]) empty_world
  = (Return [tool_message ack_text "call_1"; tool_message ack_text "call_2"],
     pushed X_scenario.E X_scenario.question_text
       (pushed X_scenario.E X_scenario.email_text empty_world))
  /\ length [tool_message ack_text "call_1"; tool_message ack_text "call_2"]
     = length [X_scenario.email_only_call; X_scenario.question_call].
Proof.
  assert (H : handle_tool_call X_scenario.E
                (Some [X_scenario.email_only_call; X_scenario.question_call])
                empty_world
              = (Return [tool_message ack_text "call_1";
                         tool_message ack_text "call_2"],
                 pushed X_scenario.E X_scenario.question_text
                   (pushed X_scenario.E X_scenario.email_text empty_world)))
    by reflexivity.
  split; [exact H | ].
  exact (proj1 (handle_tool_call_returns_one_message_per_call X_scenario.E
                  [X_scenario.email_only_call; X_scenario.question_call]
                  empty_world _ _ H)).
Defined.

Lemma mem_keys_none k (d : pydict) :
  mem k (keys d) = false -> dict_get k d = None.
Proof.
  induction d as [ | [k' v'] d IH]; simpl; intros H.
  - reflexivity.
  - destruct (String.eqb k k'); [discriminate | ]. apply IH. exact H.
Qed.

(** X10.  A call of a declared tool whose decoded arguments do not conform to
    its schema (not a mapping, a required parameter missing, or a
    parameter that is not declared) raises [TypeError] when the arguments
    are bound, before the tool runs: no notification is attempted. *)
Theorem nonconforming_arguments_raise_before_the_tool_runs :
  forall E tool_call definition arguments w,
    In definition (catalog_definitions tools) ->
    definition_name definition = Some (fn_name (tc_function tool_call)) ->
    loads E (fn_arguments (tc_function tool_call))
    = Return arguments ->
    conforms definition arguments = false ->
    dispatch E tool_call w
    = (Raise TypeError,
       debug_log E
         ("[DEBUG] Tool called: " ++ fn_name (tc_function tool_call)) w)
    /\ posts (snd (dispatch E tool_call w)) = posts w.
Proof.
  intros E tool_call definition arguments w Hin Hname Hl Hc.
  assert (H : dispatch E tool_call w
              = (Raise TypeError,
                 debug_log E
                   ("[DEBUG] Tool called: "
                    ++ fn_name (tc_function tool_call)) w)).
  { rewrite (dispatch_decoded E tool_call arguments w Hl).
    simpl in Hin. destruct Hin as [Hd | [Hd | []]]; subst definition;
      injection Hname as Hname; rewrite <- Hname.
    - change (globals_get E "record_user_details") with ORecordUserDetails.
      cbv beta iota delta [truthy].
      destruct arguments as [ | | | | | | kwargs | | ]; try reflexivity.
      unfold conforms in Hc.
      change (declared_parameters record_user_details_json)
        with ["email"; "name"; "notes"] in Hc.
      change (required_parameters record_user_details_json)
        with [PyStr "email"] in Hc.
      unfold call_with, call, unexpected.
      destruct (forallb (fun k => mem k ["email"; "name"; "notes"])
                  (keys kwargs)); [ | reflexivity].
      simpl in Hc. rewrite andb_true_r in Hc.
      cbv beta iota delta [negb]. unfold bind at 1. unfold arg.
      rewrite (mem_keys_none _ _ Hc). reflexivity.
    - change (globals_get E "record_unknown_question")
        with ORecordUnknownQuestion.
      cbv beta iota delta [truthy].
      destruct arguments as [ | | | | | | kwargs | | ]; try reflexivity.
      unfold conforms in Hc.
      change (declared_parameters record_unknown_question_json)
        with ["question"] in Hc.
      change (required_parameters record_unknown_question_json)
        with [PyStr "question"] in Hc.
      unfold call_with, call, unexpected.
      destruct (forallb (fun k => mem k ["question"]) (keys kwargs));
        [ | reflexivity].
      simpl in Hc. rewrite andb_true_r in Hc.
      cbv beta iota delta [negb]. unfold bind at 1. unfold arg.
      rewrite (mem_keys_none _ _ Hc). reflexivity. }
  split; [exact H | ]. rewrite H. simpl. apply debug_log_posts.
Qed.

Lemma nonconforming_arguments_raise_before_the_tool_runs_witness :
  In record_user_details_json (catalog_definitions tools)
  /\ definition_name record_user_details_json
     = Some (fn_name (tc_function X_scenario.no_email_call))
  /\ loads X_scenario.E
       (fn_arguments (tc_function X_scenario.no_email_call))
     = Return (PyDict [("name", PyStr "Ada")])
  /\ conforms record_user_details_json (PyDict [("name", PyStr "Ada")]) = false
  /\ dispatch X_scenario.E X_scenario.no_email_call empty_world
     = (Raise TypeError, empty_world).
Proof.
  assert (Hin : In record_user_details_json (catalog_definitions tools))
    by (simpl; left; reflexivity).
  assert (Hl : loads X_scenario.E
                 (fn_arguments (tc_function X_scenario.no_email_call))
               = Return (PyDict [("name", PyStr "Ada")])) by reflexivity.
  split; [exact Hin | split; [reflexivity | split; [exact Hl | ]]].
  split; [reflexivity | ].
  exact (proj1 (nonconforming_arguments_raise_before_the_tool_runs
                  X_scenario.E X_scenario.no_email_call
                  record_user_details_json (PyDict [("name", PyStr "Ada")])
                  empty_world Hin eq_refl Hl eq_refl)).
Defined.




(** X12.  A tool call whose name is bound, in the globals of the module, to a
    module or to a true value that is not callable (the imported modules,
    the schema dicts, the catalog list, ...) raises [TypeError] once its
    arguments are decoded; nothing is notified. *)
Theorem name_of_a_non_callable_global_raises :
  forall E tool_call arguments w,
    loads E (fn_arguments (tc_function tool_call))
    = Return arguments ->
    truthy (globals_get E (fn_name (tc_function tool_call))) = true ->
    ((exists module,
         globals_get E (fn_name (tc_function tool_call)) = OModule module)
     \/ (exists v,
           globals_get E (fn_name (tc_function tool_call)) = OValue v)) ->
    dispatch E tool_call w
    = (Raise TypeError,
       debug_log E
         ("[DEBUG] Tool called: " ++ fn_name (tc_function tool_call)) w).
Proof.
  intros E tool_call arguments w Hl Ht Hg.
  rewrite (dispatch_decoded E tool_call arguments w Hl). rewrite Ht.
  destruct Hg as [[module Hg] | [v Hg]]; rewrite Hg;
    destruct arguments; reflexivity.
Qed.

Lemma name_of_a_non_callable_global_raises_witness :
  loads X_scenario.E
    (fn_arguments (tc_function X_scenario.module_call)) = Return (PyDict [])
  /\ truthy (globals_get X_scenario.E
               (fn_name (tc_function X_scenario.module_call))) = true
  /\ ((exists module,
          globals_get X_scenario.E
            (fn_name (tc_function X_scenario.module_call)) = OModule module)
      \/ (exists v,
            globals_get X_scenario.E
              (fn_name (tc_function X_scenario.module_call)) = OValue v))
  /\ dispatch X_scenario.E X_scenario.module_call empty_world
     = (Raise TypeError, empty_world).
Proof.
  assert (Hl : loads X_scenario.E
                 (fn_arguments (tc_function X_scenario.module_call))
               = Return (PyDict [])) by reflexivity.
  assert (Hg : (exists module,
                   globals_get X_scenario.E
                     (fn_name (tc_function X_scenario.module_call))
                   = OModule module)
               \/ (exists v,
                     globals_get X_scenario.E
                       (fn_name (tc_function X_scenario.module_call))
                     = OValue v))
    by (left; exists "os"; reflexivity).
  split; [exact Hl | split; [reflexivity | split; [exact Hg | ]]].
  exact (name_of_a_non_callable_global_raises X_scenario.E
           X_scenario.module_call (PyDict []) empty_world Hl eq_refl Hg).
Defined.

Lemma Me__init___world E w : snd (Me__init__ E w) = w.
Proof.
  unfold Me__init__, bind, lift, ret.
  destruct (openai_client E _ _); [ | reflexivity].
  destruct (pdf_pages E _); [ | reflexivity].
  destruct (read_text E _); reflexivity.
Qed.

(** X13.  A tool call that names the class [Me] never yields a tool message:
    with any decodable arguments dispatch raises (keyword arguments are
    refused, the construction may fail, and an instance is not JSON
    data), and nothing is notified. *)
Theorem tool_call_naming_the_class_always_raises :
  forall E tool_call arguments w,
    fn_name (tc_function tool_call) = "Me" ->
    loads E (fn_arguments (tc_function tool_call))
    = Return arguments ->
    exists e,
      dispatch E tool_call w
      = (Raise e, debug_log E "[DEBUG] Tool called: Me" w).
Proof.
  intros E tool_call arguments w Hname Hl.
  rewrite (dispatch_decoded E tool_call arguments w Hl). rewrite Hname.
  change (globals_get E "Me") with OClassMe.
  cbv beta iota delta [truthy].
  destruct arguments as [ | | | | | | kwargs | | ];
    try (exists TypeError; reflexivity).
  unfold call_with, call.
  destruct (unexpected [] kwargs); [exists TypeError; reflexivity | ].
  unfold bind.
  pose proof (Me__init___world E (debug_log E "[DEBUG] Tool called: Me" w))
    as Hw.
  change ("[DEBUG] Tool called: " ++ "Me") with "[DEBUG] Tool called: Me".
  destruct (Me__init__ E (debug_log E "[DEBUG] Tool called: Me" w))
    as [[me | e] w1]; simpl in Hw; subst w1.
  - exists TypeError. reflexivity.
  - exists e. reflexivity.
Qed.

Lemma tool_call_naming_the_class_always_raises_witness :
  fn_name (tc_function X_scenario.class_call) = "Me"
  /\ loads X_scenario.E
       (fn_arguments (tc_function X_scenario.class_call)) = Return (PyDict [])
  /\ exists e,
       dispatch X_scenario.E X_scenario.class_call empty_world
       = (Raise e, debug_log X_scenario.E "[DEBUG] Tool called: Me" empty_world).
Proof.
  assert (Hl : loads X_scenario.E
                 (fn_arguments (tc_function X_scenario.class_call))
               = Return (PyDict [])) by reflexivity.
  split; [reflexivity | split; [exact Hl | ]].
  exact (tool_call_naming_the_class_always_raises X_scenario.E
           X_scenario.class_call (PyDict []) empty_world eq_refl Hl).
Defined.

(** *** How many notifications a dispatch can make *)

Lemma posts_within_ret {A : Type} (a : A) : posts_within 0 (ret a).
Proof. intros w. exists 0. simpl. split; lia. Qed.

Lemma posts_within_raise {A : Type} e : posts_within 0 (@raise A e).
Proof. intros w. exists 0. simpl. split; lia. Qed.

Lemma posts_within_lift {A : Type} (r : result A) : posts_within 0 (lift r).
Proof. intros w. exists 0. simpl. split; lia. Qed.

Lemma posts_within_print line : posts_within 0 (print line).
Proof. intros w. exists 0. simpl. split; lia. Qed.

Lemma posts_within_requests_post E u d :
  posts_within 1 (requests_post E u d).
Proof.
  intros w. exists 1. simpl. rewrite length_app. simpl. split; lia.
Qed.

Lemma posts_within_le {A : Type} n n' (m : M A) :
  n <= n' -> posts_within n m -> posts_within n' m.
Proof.
  intros Hle Hm w. destruct (Hm w) as [k [Hk H]]. exists k. split; [lia | exact H].
Qed.

Lemma posts_within_bind {A B : Type} a b (m : M A) (k : A -> M B) :
  posts_within a m -> (forall x, posts_within b (k x)) ->
  posts_within (a + b) (bind m k).
Proof.
  intros Hm Hk w. unfold bind.
  destruct (Hm w) as [i [Hi H]].
  destruct (m w) as [[x | e] w1]; simpl in H.
  - destruct (Hk x w1) as [j [Hj H']].
    exists (i + j). split; [lia | ]. rewrite H', H. lia.
  - exists i. split; [lia | exact H].
Qed.

Lemma posts_within_debug E line :
  posts_within 0 (if DEBUG E then print line else ret tt).
Proof.
  destruct (DEBUG E); [apply posts_within_print | apply posts_within_ret].
Qed.

Lemma posts_within_push E message : posts_within 1 (push E message).
Proof.
  unfold push.
  apply (posts_within_bind 0 1); [apply posts_within_debug | intros _].
  apply (posts_within_bind 1 0); [apply posts_within_requests_post | intros _].
  apply posts_within_ret.
Qed.

Lemma posts_within_arg kwargs param default :
  posts_within 0 (arg kwargs param default).
Proof.
  unfold arg. destruct (dict_get param kwargs), default;
    try apply posts_within_ret; apply posts_within_raise.
Qed.

Lemma posts_within_call E o kwargs : posts_within 1 (call E o kwargs).
Proof.
  destruct o; simpl;
    try (apply (posts_within_le 0 1); [lia | ];
         first [apply posts_within_raise | apply posts_within_lift]).
  - destruct (unexpected _ kwargs).
    + apply (posts_within_le 0 1); [lia | apply posts_within_raise].
    + apply (posts_within_bind 0 1); [apply posts_within_arg | intros x].
      apply posts_within_push.
  - destruct (unexpected _ kwargs).
    + apply (posts_within_le 0 1); [lia | apply posts_within_raise].
    + apply (posts_within_bind 0 1); [apply posts_within_arg | intros x].
      apply (posts_within_bind 0 1); [apply posts_within_arg | intros y].
      apply (posts_within_bind 0 1); [apply posts_within_arg | intros z].
      unfold record_user_details.
      apply (posts_within_bind 1 0); [apply posts_within_push | intros _].
      apply posts_within_ret.
  - destruct (unexpected _ kwargs).
    + apply (posts_within_le 0 1); [lia | apply posts_within_raise].
    + apply (posts_within_bind 0 1); [apply posts_within_arg | intros x].
      unfold record_unknown_question.
      apply (posts_within_bind 1 0); [apply posts_within_push | intros _].
      apply posts_within_ret.
  - destruct (unexpected _ kwargs).
    + apply (posts_within_le 0 1); [lia | apply posts_within_raise].
    + apply (posts_within_le 0 1); [lia | ].
      apply (posts_within_bind 0 0); [ | intros _; apply posts_within_ret].
      intros w. exists 0. rewrite Me__init___world. split; lia.
Qed.

Lemma posts_within_dispatch E tool_call :
  posts_within 1 (dispatch E tool_call).
Proof.
  unfold dispatch.
  apply (posts_within_bind 0 1).
  { unfold json_loads. destruct (loads _ _);
      [apply posts_within_ret | apply posts_within_raise]. }
  intros arguments.
  apply (posts_within_bind 0 1); [apply posts_within_debug | intros _].
  apply (posts_within_bind 1 0).
  { destruct (truthy _).
    - unfold call_with. destruct arguments;
        try (apply (posts_within_le 0 1); [lia | apply posts_within_raise]).
      apply posts_within_call.
    - apply (posts_within_le 0 1); [lia | apply posts_within_ret]. }
  intros result.
  apply (posts_within_bind 0 0); [apply posts_within_lift | intros content].
  apply posts_within_ret.
Qed.

Lemma posts_within_handle_tool_call_from E tool_calls :
  forall results,
    posts_within (length tool_calls)
      (handle_tool_call_from E results tool_calls).
Proof.
  induction tool_calls as [ | tool_call rest IH]; intros results; simpl.
  - apply posts_within_ret.
  - apply (posts_within_bind 1 (length rest)).
    + apply posts_within_dispatch.
    + intros m. apply IH.
Qed.

(** X8.  Whatever the model asks for, [handle_tool_call] attempts at most
    one notification POST per tool call, and it never removes a POST
    from those already made. *)
Theorem handle_tool_call_posts_at_most_once_per_call :
  forall E tool_calls w,
  exists k,
    k <= length tool_calls
    /\ length (posts (snd (handle_tool_call E (Some tool_calls) w)))
       = length (posts w) + k.
Proof.
  intros E tool_calls w. simpl.
  apply posts_within_handle_tool_call_from.
Qed.

(** *** What stays done when a later tool call fails *)





(** *** Arguments beyond the limits of the interpreter *)



(** ** Further properties of [chat] and of [Me] *)

Lemma clean_raise msg e :
  clean msg = Raise e -> e = KeyError "role" \/ e = KeyError "content".
Proof.
  unfold clean, getitem. destruct msg; try discriminate.
  destruct (dict_get "role" items).
  - destruct (dict_get "content" items); [discriminate | ].
    intros H. inversion H. right. reflexivity.
  - intros H. inversion H. left. reflexivity.
Qed.

Lemma clean_from_missing_key history :
  forall d acc,
    In (PyDict d) history ->
    dict_get "role" d = None \/ dict_get "content" d = None ->
    exists key,
      (key = "role" \/ key = "content")
      /\ clean_from acc history = Raise (KeyError key).
Proof.
  induction history as [ | msg rest IH]; intros d acc Hin Hd.
  - destruct Hin.
  - simpl. destruct (clean msg) as [clean_msg | e] eqn:Hm.
    + destruct Hin as [Hin | Hin].
      * subst msg. unfold clean, getitem in Hm.
        destruct Hd as [Hd | Hd]; rewrite Hd in Hm.
        -- discriminate.
        -- destruct (dict_get "role" d); discriminate.
      * apply (IH d _ Hin Hd).
    + destruct (clean_raise msg e Hm) as [He | He]; subst e.
      * exists "role". auto.
      * exists "content". auto.
Qed.

(** X1.  When some dict of the prior history has no ["role"] or no
    ["content"], [chat] raises [KeyError] for one of these two keys while
    it cleans the history: nothing is sent to the model, nothing is
    printed or notified. *)
Theorem chat_raises_KeyError_on_history_dict_without_role_or_content :
  forall E fuel self text history d w,
    In (PyDict d) history ->
    dict_get "role" d = None \/ dict_get "content" d = None ->
    exists key,
      (key = "role" \/ key = "content")
      /\ chat E fuel self text history w = Some (Raise (KeyError key), w).
Proof.
  intros E fuel self text history d w Hin Hd.
  destruct (clean_from_missing_key history d [] Hin Hd) as [key [Hk H]].
  exists key. split; [exact Hk | ]. unfold chat. rewrite H. reflexivity.
Qed.

Lemma chat_raises_KeyError_on_history_dict_without_role_or_content_witness :
  In (PyDict [("role", PyStr "assistant")]) X_scenario.bad_history
  /\ (dict_get "role" [("role", PyStr "assistant")] = None
      \/ dict_get "content" [("role", PyStr "assistant")] = None)
  /\ exists key,
       (key = "role" \/ key = "content")
       /\ chat X_scenario.E 3 Scenario.me "Hello" X_scenario.bad_history
            empty_world
          = Some (Raise (KeyError key), empty_world).
Proof.
  assert (Hin : In (PyDict [("role", PyStr "assistant")])
                  X_scenario.bad_history)
    by (right; left; reflexivity).
  assert (Hd : dict_get "role" [("role", PyStr "assistant")] = None
               \/ dict_get "content" [("role", PyStr "assistant")] = None)
    by (right; reflexivity).
  split; [exact Hin | split; [exact Hd | ]].
  exact (chat_raises_KeyError_on_history_dict_without_role_or_content
           X_scenario.E 3 Scenario.me "Hello" X_scenario.bad_history
           [("role", PyStr "assistant")] empty_world Hin Hd).
Defined.

Lemma cleaned_is_plain msg clean_msg : cleaned msg clean_msg -> plain clean_msg.
Proof.
  unfold cleaned. destruct msg; intros H; try (subst; exact I).
  destruct H as [role [content [_ [_ H]]]]. subst. simpl. auto.
Qed.

(** X2.  Cleaning is idempotent: a history that came out of the cleaning
    of [chat] is cleaned into itself. *)
Theorem cleaning_a_cleaned_history_changes_nothing :
  forall history clean_history,
    clean_from [] history = Return clean_history ->
    clean_from [] clean_history = Return clean_history.
Proof.
  intros history clean_history H.
  destruct (clean_from_inv history [] clean_history H) as [cl [Ho HF]].
  simpl in Ho. subst cl. clear H.
  apply clean_from_plain.
  induction HF as [ | msg clean_msg rest clean_rest Hm Hr IH];
    constructor.
  - apply (cleaned_is_plain msg clean_msg Hm).
  - exact IH.
Qed.

Lemma cleaning_a_cleaned_history_changes_nothing_witness :
  clean_from [] C10_scenario.history = Return C10_scenario.clean_history
  /\ clean_from [] C10_scenario.clean_history
     = Return C10_scenario.clean_history.
Proof.
  assert (H : clean_from [] C10_scenario.history
              = Return C10_scenario.clean_history) by reflexivity.
  split; [exact H | ].
  exact (cleaning_a_cleaned_history_changes_nothing C10_scenario.history
           C10_scenario.clean_history H).
Defined.

Lemma append_nil_r (s : string) : s ++ EmptyString = s.
Proof. induction s as [ | c s IH]; simpl; [ | rewrite IH]; reflexivity. Qed.

Lemma concat_cons (x : string) (xs : list string) :
  String.concat EmptyString (x :: xs) = x ++ String.concat EmptyString xs.
Proof.
  destruct xs; simpl; [rewrite append_nil_r | ]; reflexivity.
Qed.

Lemma fold_pages pages :
  forall acc,
    fold_left
      (fun acc text => if truth (PyStr text) then acc ++ text else acc)
      pages acc
    = acc ++ String.concat EmptyString pages.
Proof.
  induction pages as [ | text pages IH]; intros acc.
  - simpl. rewrite append_nil_r. reflexivity.
  - rewrite concat_cons. cbn [fold_left]. rewrite IH.
    unfold truth. destruct (String.eqb_spec text EmptyString) as [He | He].
    + subst text. reflexivity.
    + simpl. rewrite append_assoc. reflexivity.
Qed.

(** X14.  When the client can be built and both files can be read,
    [Me.__init__] gives the persona named Moamen on the Groq model, whose
    profile text is the concatenation of the texts of all the pages of the
    PDF, in order (skipping the empty pages changes nothing), and whose
    summary is the content of the summary file; it has no other effect. *)
Theorem Me_init_concatenates_the_pages :
  forall E w pages text,
    openai_client E (environ E "GROQ_API_KEY")
      "https://api.groq.com/openai/v1" = Return tt ->
    pdf_pages E "me/Profile.pdf" = Return pages ->
    read_text E "me/summary.txt" = Return text ->
    Me__init__ E w
    = (Return {| name := "Moamen";
                 model_name := "llama-3.3-70b-versatile";
                 linkedin := String.concat EmptyString pages;
                 summary := text |},
       w).
Proof.
  intros E w pages text Hc Hp Hs.
  unfold Me__init__, bind, lift, ret. rewrite Hc, Hp, Hs.
  rewrite fold_pages. reflexivity.
Qed.

Lemma Me_init_concatenates_the_pages_witness :
  openai_client X_scenario.E (environ X_scenario.E "GROQ_API_KEY")
    "https://api.groq.com/openai/v1" = Return tt
  /\ pdf_pages X_scenario.E "me/Profile.pdf" = Return ["Software engineer."]
  /\ read_text X_scenario.E "me/summary.txt" = Return "I build things."
  /\ Me__init__ X_scenario.E empty_world
     = (Return {| name := "Moamen";
                  model_name := "llama-3.3-70b-versatile";
                  linkedin := String.concat EmptyString ["Software engineer."];
                  summary := "I build things." |},
        empty_world).
Proof.
  split; [reflexivity | split; [reflexivity | split; [reflexivity | ]]].
  exact (Me_init_concatenates_the_pages X_scenario.E empty_world
           ["Software engineer."] "I build things." eq_refl eq_refl eq_refl).
Defined.

(** X5.  A model request that fails, an answer without any choice and an
    answer that asks for tools but carries no list of calls each end the
    turn at once, with the exception of the client, [IndexError] and
    [TypeError] respectively; the request was sent once and is not
    retried, and nothing else was done. *)
Theorem abnormal_model_answers_end_the_turn :
  forall E self messages w fuel,
    (forall e,
        model E (length (requests w)) (request_for self messages) = Raise e ->
        chat_loop E (S fuel) self messages w
        = Some (Raise e, requested self messages w))
    /\ (forall response,
          model E (length (requests w)) (request_for self messages)
          = Return response ->
          choices response = [] ->
          chat_loop E (S fuel) self messages w
          = Some (Raise IndexError, requested self messages w))
    /\ (forall response choice rest,
          model E (length (requests w)) (request_for self messages)
          = Return response ->
          choices response = choice :: rest ->
          finish_reason choice = "tool_calls" ->
          msg_tool_calls (message choice) = None ->
          chat_loop E (S fuel) self messages w
          = Some (Raise TypeError, requested self messages w)).
Proof.
  intros E self messages w fuel. split; [ | split].
  - intros e H. simpl. rewrite (loop_body_raise_model _ _ _ _ _ H).
    reflexivity.
  - intros response H Hc. simpl.
    rewrite (loop_body_no_choice _ _ _ _ _ H Hc). reflexivity.
  - intros response choice rest H Hc Hf Ht.
    apply (chat_loop_tools_raise E fuel self messages w response choice rest).
    + exact H.
    + exact Hc.
    + rewrite Hf. reflexivity.
    + rewrite Ht. reflexivity.
Qed.

Lemma abnormal_model_answers_end_the_turn_witness :
  model X_scenario.E_down (length (requests empty_world))
    (request_for Scenario.me X_scenario.messages) = Raise OpenAIError
  /\ chat_loop X_scenario.E_down 3 Scenario.me X_scenario.messages empty_world
     = Some (Raise OpenAIError,
             requested Scenario.me X_scenario.messages empty_world)
  /\ chat_loop X_scenario.E_no_choice 3 Scenario.me X_scenario.messages
       empty_world
     = Some (Raise IndexError,
             requested Scenario.me X_scenario.messages empty_world)
  /\ chat_loop X_scenario.E_no_list 3 Scenario.me X_scenario.messages
       empty_world
     = Some (Raise TypeError,
             requested Scenario.me X_scenario.messages empty_world).
Proof.
  split; [reflexivity | split; [ | split]].
  - exact (proj1 (abnormal_model_answers_end_the_turn X_scenario.E_down
                    Scenario.me X_scenario.messages empty_world 2)
             OpenAIError eq_refl).
  - exact (proj1 (proj2 (abnormal_model_answers_end_the_turn
                           X_scenario.E_no_choice Scenario.me
                           X_scenario.messages empty_world 2))
             {| choices := [] |} eq_refl eq_refl).
  - exact (proj2 (proj2 (abnormal_model_answers_end_the_turn
                           X_scenario.E_no_list Scenario.me
                           X_scenario.messages empty_world 2))
             X_scenario.no_list_answer
             {| finish_reason := "tool_calls";
                message := {| msg_content := None;
                              msg_tool_calls := None |} |}
             [] eq_refl eq_refl eq_refl eq_refl).
Defined.

(** *** The requests of one turn *)

(** X3.  The requests that one call of [chat] has sent to the model when
    it ends: the first carries the system instruction, the cleaned
    history and the user message; all name the model of the persona and
    carry the same tool catalog; and each later request carries all the
    messages of every earlier one with more appended after them, an
    assistant message at least: messages are only ever appended. *)
Theorem requests_of_a_turn_only_grow :
  forall E fuel self text history clean_history w out,
    clean_from [] history = Return clean_history ->
    chat E fuel self text history w = Some out ->
    exists later,
      requests (snd out)
      = (requests w
         ++ {| req_model := model_name self;
               req_messages :=
                 ([PyDict [("role", PyStr "system");
                           ("content", PyStr (system_prompt self))]]
                  ++ clean_history
                  ++ [PyDict [("role", PyStr "user");
                              ("content", PyStr text)]])%list;
               req_tools := tools |}
         :: later)%list
      /\ Forall (fun r =>
                   req_model r = model_name self
                   /\ req_tools r = tools
                   /\ exists answer tail,
                        req_messages r
                        = (([PyDict [("role", PyStr "system");
                                     ("content", PyStr (system_prompt self))]]
                            ++ clean_history
                            ++ [PyDict [("role", PyStr "user");
                                        ("content", PyStr text)]])
                           ++ PyMessage answer :: tail)%list)
           later
      /\ ForallOrdPairs extends
           ({| req_model := model_name self;
               req_messages :=
                 ([PyDict [("role", PyStr "system");
                           ("content", PyStr (system_prompt self))]]
                  ++ clean_history
                  ++ [PyDict [("role", PyStr "user");
                              ("content", PyStr text)]])%list;
               req_tools := tools |}
            :: later).
Proof.
  intros E fuel self text history clean_history w out Hc H.
  unfold chat in H. rewrite Hc in H.
  apply (chat_loop_requests_grow E self fuel _ w out H).
Qed.

(** X3 on a turn with one round of tools: two requests, the second with
    the assistant message and the tool message after the messages of the
    first. *)
Lemma requests_of_a_turn_only_grow_witness :
  clean_from [] [] = Return []
  /\ chat X_scenario.E2 3 Scenario.me "Hello" [] empty_world
     = Some (Return (Some "Thanks, I'll be in touch!"), X_scenario.final_world)
  /\ length (requests X_scenario.final_world) = 2
  /\ exists later,
       requests X_scenario.final_world
       = (requests empty_world
          ++ {| req_model := model_name Scenario.me;
                req_messages :=
                  ([PyDict [("role", PyStr "system");
                            ("content", PyStr (system_prompt Scenario.me))]]
                   ++ []
                   ++ [PyDict [("role", PyStr "user");
                               ("content", PyStr "Hello")]])%list;
                req_tools := tools |}
          :: later)%list
       /\ Forall (fun r =>
                    req_model r = model_name Scenario.me
                    /\ req_tools r = tools
                    /\ exists answer tail,
                         req_messages r
                         = (([PyDict [("role", PyStr "system");
                                      ("content",
                                       PyStr (system_prompt Scenario.me))]]
                             ++ []
                             ++ [PyDict [("role", PyStr "user");
                                         ("content", PyStr "Hello")]])
                            ++ PyMessage answer :: tail)%list)
            later
       /\ ForallOrdPairs extends
            ({| req_model := model_name Scenario.me;
                req_messages :=
                  ([PyDict [("role", PyStr "system");
                            ("content", PyStr (system_prompt Scenario.me))]]
                   ++ []
                   ++ [PyDict [("role", PyStr "user");
                               ("content", PyStr "Hello")]])%list;
                req_tools := tools |}
             :: later).
Proof.
  assert (H : chat X_scenario.E2 3 Scenario.me "Hello" [] empty_world
              = Some (Return (Some "Thanks, I'll be in touch!"),
                      X_scenario.final_world)) by reflexivity.
  split; [reflexivity | split; [exact H | split; [reflexivity | ]]].
  exact (requests_of_a_turn_only_grow X_scenario.E2 3 Scenario.me "Hello" []
           [] empty_world _ eq_refl H).
Defined.




(** *** What is printed *)

Lemma keeps_stdout_ret {A : Type} (a : A) : keeps_stdout (ret a).
Proof. intros w. reflexivity. Qed.

Lemma keeps_stdout_raise {A : Type} e : keeps_stdout (@raise A e).
Proof. intros w. reflexivity. Qed.

Lemma keeps_stdout_lift {A : Type} (r : result A) : keeps_stdout (lift r).
Proof. intros w. reflexivity. Qed.

Lemma keeps_stdout_requests_post E u d : keeps_stdout (requests_post E u d).
Proof. intros w. reflexivity. Qed.

Lemma keeps_stdout_bind {A B : Type} (m : M A) (k : A -> M B) :
  keeps_stdout m -> (forall a, keeps_stdout (k a)) ->
  keeps_stdout (bind m k).
Proof.
  intros Hm Hk w. unfold bind.
  specialize (Hm w). destruct (m w) as [[a | e] w1]; simpl in Hm.
  - rewrite Hk. exact Hm.
  - exact Hm.
Qed.

Lemma keeps_stdout_arg kwargs param default :
  keeps_stdout (arg kwargs param default).
Proof.
  unfold arg. destruct (dict_get param kwargs), default;
    try apply keeps_stdout_ret; apply keeps_stdout_raise.
Qed.

Section Quiet.

Variable E : Env.
Hypothesis quiet : DEBUG E = false.

Lemma keeps_stdout_debug line :
  keeps_stdout (if DEBUG E then print line else ret tt).
Proof. rewrite quiet. apply keeps_stdout_ret. Qed.

Lemma keeps_stdout_push message : keeps_stdout (push E message).
Proof.
  unfold push.
  apply keeps_stdout_bind; [apply keeps_stdout_debug | intros _].
  apply keeps_stdout_bind; [apply keeps_stdout_requests_post | intros _].
  apply keeps_stdout_ret.
Qed.

Lemma keeps_stdout_call o kwargs : keeps_stdout (call E o kwargs).
Proof.
  destruct o; simpl;
    try first [apply keeps_stdout_raise | apply keeps_stdout_lift];
    destruct (unexpected _ kwargs); try apply keeps_stdout_raise.
  - apply keeps_stdout_bind; [apply keeps_stdout_arg | intros x].
    apply keeps_stdout_push.
  - apply keeps_stdout_bind; [apply keeps_stdout_arg | intros x].
    apply keeps_stdout_bind; [apply keeps_stdout_arg | intros y].
    apply keeps_stdout_bind; [apply keeps_stdout_arg | intros z].
    unfold record_user_details.
    apply keeps_stdout_bind; [apply keeps_stdout_push | intros _].
    apply keeps_stdout_ret.
  - apply keeps_stdout_bind; [apply keeps_stdout_arg | intros x].
    unfold record_unknown_question.
    apply keeps_stdout_bind; [apply keeps_stdout_push | intros _].
    apply keeps_stdout_ret.
  - apply keeps_stdout_bind; [ | intros _; apply keeps_stdout_ret].
    intros w. rewrite Me__init___world. reflexivity.
Qed.

Lemma keeps_stdout_dispatch tool_call : keeps_stdout (dispatch E tool_call).
Proof.
  unfold dispatch.
  apply keeps_stdout_bind.
  { unfold json_loads. destruct (loads _ _);
      [apply keeps_stdout_ret | apply keeps_stdout_raise]. }
  intros arguments.
  apply keeps_stdout_bind; [apply keeps_stdout_debug | intros _].
  apply keeps_stdout_bind.
  { destruct (truthy _); [ | apply keeps_stdout_ret].
    unfold call_with. destruct arguments; try apply keeps_stdout_raise.
    apply keeps_stdout_call. }
  intros result.
  apply keeps_stdout_bind; [apply keeps_stdout_lift | intros content].
  apply keeps_stdout_ret.
Qed.

Lemma keeps_stdout_handle_tool_call_from tool_calls :
  forall results,
    keeps_stdout (handle_tool_call_from E results tool_calls).
Proof.
  induction tool_calls as [ | tool_call rest IH]; intros results; simpl.
  - apply keeps_stdout_ret.
  - apply keeps_stdout_bind; [apply keeps_stdout_dispatch | intros m].
    apply IH.
Qed.

Lemma keeps_stdout_loop_body self messages :
  keeps_stdout (loop_body E self messages).
Proof.
  unfold loop_body.
  apply keeps_stdout_bind; [intros w; reflexivity | intros response].
  apply keeps_stdout_bind.
  { unfold first_choice. destruct (choices response);
      [apply keeps_stdout_raise | apply keeps_stdout_ret]. }
  intros choice.
  destruct (String.eqb (finish_reason choice) "tool_calls");
    [ | apply keeps_stdout_ret].
  apply keeps_stdout_bind; [ | intros r; apply keeps_stdout_ret].
  unfold handle_tool_call. destruct (msg_tool_calls (message choice)).
  - apply keeps_stdout_handle_tool_call_from.
  - apply keeps_stdout_raise.
Qed.

Lemma chat_loop_quiet self :
  forall fuel messages w out,
    chat_loop E fuel self messages w = Some out ->
    stdout (snd out) = stdout w.
Proof.
  induction fuel as [ | fuel IH]; intros messages w out H; simpl in H.
  - discriminate.
  - pose proof (keeps_stdout_loop_body self messages w) as K.
    destruct (loop_body E self messages w) as [[[messages' | choice] | e] w1];
      simpl in K.
    + rewrite (IH _ _ _ H). exact K.
    + inversion H; subst. exact K.
    + inversion H; subst. exact K.
Qed.

End Quiet.

(** X6.  Unless the environment variable [DEBUG] is set to a spelling of
    [true], a call of [chat] prints nothing, however many tools it
    dispatches and however it ends. *)
Theorem chat_prints_nothing_unless_DEBUG :
  forall E fuel self text history w out,
    DEBUG E = false ->
    chat E fuel self text history w = Some out ->
    stdout (snd out) = stdout w.
Proof.
  intros E fuel self text history w out Hq H. unfold chat in H.
  destruct (clean_from [] history) as [clean_history | e].
  - apply (chat_loop_quiet E Hq self fuel _ w out H).
  - inversion H; subst. reflexivity.
Qed.

Lemma chat_prints_nothing_unless_DEBUG_witness :
  DEBUG X_scenario.E2 = false
  /\ chat X_scenario.E2 3 Scenario.me "Hello" [] empty_world
     = Some (Return (Some "Thanks, I'll be in touch!"), X_scenario.final_world)
  /\ stdout (snd (Return (Some "Thanks, I'll be in touch!"),
                  X_scenario.final_world))
     = stdout empty_world.
Proof.
  assert (H : chat X_scenario.E2 3 Scenario.me "Hello" [] empty_world
              = Some (Return (Some "Thanks, I'll be in touch!"),
                      X_scenario.final_world)) by reflexivity.
  split; [reflexivity | split; [exact H | ]].
  exact (chat_prints_nothing_unless_DEBUG X_scenario.E2 3 Scenario.me "Hello"
           [] empty_world _ eq_refl H).
Defined.
